(** * fix_mapfile_time.py: a shallow embedding and its properties

    The script patches the [wms_timeextent] metadata entry of one layer of a
    MapServer mapfile from the time extent advertised by the layer's remote
    WMS GetCapabilities document.

    The embedding follows the script function by function.  The libraries it
    calls (str methods and the [%] operator, posixpath, lxml's XPath engine,
    mapscript, urllib2, logging) are modelled as far as the script uses
    them; what the outside world answers (HTTP bodies, the XML parser, the
    interactive debugger session) is a field of [environment]. *)

From Stdlib Require Import ZArith Ascii Sorted.
From stdpp Require Import base option list strings gmap.

Local Open Scope Z_scope.
Local Open Scope list_scope.
Local Open Scope stdpp_scope.

(* ===================================================================== *)
(** ** Python values the script relies on *)
(* ===================================================================== *)

Module Py.

(** The exception classes that can travel through the script. *)
Inductive exn : Type :=
| AssertionError
| AttributeError
| IndexError
| KeyError (key : string)
| TypeError
| ValueError
| ImportError
| IOError
| MapServerError
| URLError
| XMLSyntaxError
| XPathEvalError
| KeyboardInterrupt
| SystemExit (status : Z).

(** An evaluation either yields a value or raises. *)
Inductive result (A : Type) : Type :=
| Ok (a : A)
| Raise (e : exn).
Arguments Ok {A} a.
Arguments Raise {A} e.

(** [s.startswith(p)]. *)
Fixpoint startswith (s p : string) {struct p} : bool :=
  match p, s with
  | EmptyString, _ => true
  | String _ _, EmptyString => false
  | String a p', String b s' => if Ascii.eqb a b then startswith s' p' else false
  end.

(** [s.replace(old, new)] for a non-empty [old]: a left-to-right scan that
    replaces each non-overlapping occurrence.  [skip] counts the characters
    of an occurrence that are still to be dropped. *)
Fixpoint replace_scan (old new : string) (skip : nat) (s : string) : string :=
  match s with
  | EmptyString => EmptyString
  | String c s' =>
      match skip with
      | S k => replace_scan old new k s'
      | O =>
          if startswith s old
          then new +:+ replace_scan old new (Nat.pred (String.length old)) s'
          else String c (replace_scan old new O s')
      end
  end.

(** With an empty [old], Python puts [new] before every character and at
    the end. *)
Fixpoint replace_between (new s : string) : string :=
  match s with
  | EmptyString => new
  | String c s' => new +:+ String c (replace_between new s')
  end.

Definition replace (s old new : string) : string :=
  match old with
  | EmptyString => replace_between new s
  | String _ _ => replace_scan old new O s
  end.

(** *** Values *)

(** The values held by the script's variables: [None], the type object
    [types.NoneType], strings, and instances of the two mapscript classes
    (a map object by its handle, a layer by the handle of its map and its
    position in it). *)
Inductive value : Type :=
| VNone
| VNoneType
| VStr (s : string)
| VMap (h : nat)
| VLayer (h i : nat).

(** Truth value of [v] in a condition or an [assert]. *)
Definition truthy (v : value) : bool :=
  match v with
  | VNone => false
  | VStr EmptyString => false
  | _ => true
  end.

(** [a or b] and [a and b] return one of their operands. *)
Definition py_or (a b : value) : value := if truthy a then a else b.
Definition py_and (a b : value) : value := if truthy a then b else a.

(** [v == types.NoneType]: equality with the type object.  [None] is an
    instance of that type, not the type; strings and mapscript objects
    are not the type either. *)
Definition eq_NoneType (v : value) : bool :=
  match v with
  | VNoneType => true
  | _ => false
  end.

(** [str(v)], as [%s] applies it.  (The address in an object's default
    representation is not modelled.) *)
Definition str (v : value) : string :=
  match v with
  | VNone => "None"
  | VNoneType => "<type 'NoneType'>"
  | VStr s => s
  | VMap _ => "<mapscript.mapObj>"
  | VLayer _ _ => "<mapscript.layerObj>"
  end.

(** *** The [%] operator on strings *)

(** The right operand: a mapping, or one value that is not a tuple. *)
Inductive fargs : Type :=
| Mapping (d : gmap string value)
| Single (v : value).

(** Where the scanner is inside the template. *)
Inductive fstate : Type :=
| Lit                                  (* literal text *)
| Percent                              (* a [%] has just been read *)
| Key (depth : nat) (acc : string)     (* inside [%(...] *)
| Flags (keyed : option value).        (* flags, then the conversion *)

Definition is_flag (c : ascii) : bool :=
  existsb (Ascii.eqb c) ["-"; "+"; " "; "#"; "0"]%char.

Definition is_integer_conversion (c : ascii) : bool :=
  existsb (Ascii.eqb c) ["d"; "i"; "u"; "o"; "x"; "X"]%char.

Definition emit (c : ascii) (r : result string) : result string :=
  match r with
  | Ok s => Ok (String c s)
  | Raise e => Raise e
  end.

Definition emits (p : string) (r : result string) : result string :=
  match r with
  | Ok s => Ok (p +:+ s)
  | Raise e => Raise e
  end.

(** The argument a conversion formats: the value found under the key, or
    else the next positional one ([left] is what remains of them). *)
Definition next_arg (keyed : option value) (left : option value)
  : result (value * option value) :=
  match keyed, left with
  | Some v, _ => Ok (v, left)
  | None, Some v => Ok (v, None)
  | None, None => Raise TypeError     (* not enough arguments *)
  end.

(** What follows a [%] or a key: flags, then one conversion character.
    [more_flags] continues after a flag, [literal] after the conversion
    with the positional arguments that remain.  Only the conversions [s],
    the integer ones and [%%] are interpreted, without width, precision
    or length modifier: any other character stops with [ValueError],
    Python's answer to a character that is no conversion. *)
Definition conversion (keyed left : option value) (c : ascii)
           (more_flags : result string)
           (literal : option value -> result string) : result string :=
  if is_flag c then more_flags
  else if Ascii.eqb c "%" then emit "%" (literal left)
  else if Ascii.eqb c "s" then
    match next_arg keyed left with
    | Ok (v, left') => emits (str v) (literal left')
    | Raise e => Raise e
    end
  else if is_integer_conversion c then
    match next_arg keyed left with
    | Ok (_, _) => Raise TypeError            (* a number is required *)
    | Raise e => Raise e
    end
  else Raise ValueError.

(** Left-to-right scan of the template [t], as CPython's string formatting
    does it: [d] is the mapping operand if there is one, [left] the
    positional argument not yet used.  A key is looked up as soon as its
    closing parenthesis is read, before the flags and the conversion. *)
Fixpoint format_scan (d : option (gmap string value)) (left : option value)
         (st : fstate) (t : string) : result string :=
  match t with
  | EmptyString =>
      match st with
      | Lit =>
          match d, left with
          | None, Some _ => Raise TypeError   (* not all arguments converted *)
          | _, _ => Ok EmptyString
          end
      | _ => Raise ValueError                 (* incomplete format *)
      end
  | String c t' =>
      match st with
      | Lit =>
          if Ascii.eqb c "%" then format_scan d left Percent t'
          else emit c (format_scan d left Lit t')
      | Percent =>
          if Ascii.eqb c "(" then
            match d with
            | Some _ => format_scan d left (Key 1 EmptyString) t'
            | None => Raise TypeError         (* format requires a mapping *)
            end
          else conversion None left c
                 (format_scan d left (Flags None) t')
                 (fun left' => format_scan d left' Lit t')
      | Key depth acc =>
          if Ascii.eqb c ")" then
            match depth with
            | 1%nat =>
                match d with
                | Some m =>
                    match m !! acc with
                    | Some v => format_scan d left (Flags (Some v)) t'
                    | None => Raise (KeyError acc)
                    end
                | None => Raise TypeError
                end
            | _ => format_scan d left (Key (Nat.pred depth) (acc +:+ String c EmptyString)) t'
            end
          else if Ascii.eqb c "(" then
            format_scan d left (Key (S depth) (acc +:+ String c EmptyString)) t'
          else format_scan d left (Key depth (acc +:+ String c EmptyString)) t'
      | Flags keyed =>
          conversion keyed left c
            (format_scan d left (Flags keyed) t')
            (fun left' => format_scan d left' Lit t')
      end
  end.

(** [template % args].  (Every template that the script applies to a
    mapping takes its arguments by key; a conversion without a key against
    a mapping, which Python formats with the mapping itself, is outside
    this model and ends in [TypeError] here.) *)
Definition format (template : string) (args : fargs) : result string :=
  match args with
  | Mapping d => format_scan (Some d) None Lit template
  | Single v => format_scan None (Some v) Lit template
  end.

End Py.

Import Py.

(* ===================================================================== *)
(** ** posixpath *)
(* ===================================================================== *)

Module PosixPath.

(** [s.rfind(c)]: the index of the last [c] in [s], or -1. *)
Fixpoint rfind_from (c : ascii) (i last : Z) (s : string) : Z :=
  match s with
  | EmptyString => last
  | String d s' => rfind_from c (i + 1) (if Ascii.eqb d c then i else last) s'
  end.

Definition rfind (s : string) (c : ascii) : Z := rfind_from c 0 (-1) s.

(** [s[n:]]. *)
Fixpoint slice_from (n : nat) (s : string) : string :=
  match n, s with
  | O, _ => s
  | S _, EmptyString => EmptyString
  | S k, String _ s' => slice_from k s'
  end.

(** [basename(p)]: [i = p.rfind('/') + 1; return p[i:]]. *)
Definition basename (p : string) : string :=
  let i := rfind p "/" + 1 in
  slice_from (Z.to_nat i) p.

(** [s.endswith('/')]. *)
Fixpoint endswith_slash (s : string) : bool :=
  match s with
  | EmptyString => false
  | String c EmptyString => Ascii.eqb c "/"
  | String _ s' => endswith_slash s'
  end.

(** [join(a, b)] with one component after [a]. *)
Definition join (a b : string) : string :=
  if startswith b "/" then b
  else if String.eqb a "" || endswith_slash a then a +:+ b
  else a +:+ "/" +:+ b.

End PosixPath.

(* ===================================================================== *)
(** ** XML trees and the XPath query of the script (lxml.etree) *)
(* ===================================================================== *)

Module Xml.

(** A parsed document, without namespaces, comments or processing
    instructions: the capabilities documents of WMS 1.1.1 use none in the
    elements the script looks at. *)
#[warnings="-register-all"]
Inductive node : Type :=
| Text (s : string)
| Elem (tag : string) (attrs : list (string * string)) (kids : list node).

Definition kids_of (n : node) : list node :=
  match n with
  | Text _ => []
  | Elem _ _ ks => ks
  end.

(** Node test [tag]. *)
Definition tag_is (tag : string) (n : node) : bool :=
  match n with
  | Text _ => false
  | Elem t _ _ => String.eqb t tag
  end.

(** Node test [text()]. *)
Definition is_text (n : node) : bool :=
  match n with
  | Text _ => true
  | Elem _ _ _ => false
  end.

(** Predicate [[@a='v']]. *)
Definition attr_is (a v : string) (n : node) : bool :=
  match n with
  | Text _ => false
  | Elem _ attrs _ => existsb (fun kv => String.eqb (fst kv) a && String.eqb (snd kv) v) attrs
  end.

(** The string-value of a node: its text, or the concatenation of the
    string-values of its children, that is the text of its descendants
    in document order. *)
Fixpoint string_value (n : node) : string :=
  match n with
  | Text s => s
  | Elem _ _ ks => fold_right String.append EmptyString (map string_value ks)
  end.

(** Predicate [[Name='x']]: some child element [Name] has the
    string-value [x]. *)
Definition name_is (x : string) (n : node) : bool :=
  existsb (fun k => tag_is "Name" k && String.eqb (string_value k) x) (kids_of n).

(** Nodes are told apart by their position: the list of child indices
    that leads to them from the root element. *)
Definition path : Type := list nat.

Fixpoint node_at (n : node) (p : path) : option node :=
  match p with
  | [] => Some n
  | i :: p' =>
      match kids_of n !! i with
      | Some k => node_at k p'
      | None => None
      end
  end.

(** A list with the index of each element. *)
Definition numbered {A : Type} (l : list A) : list (nat * A) :=
  combine (seq 0 (length l)) l.

(** Every node of the tree, in document order: the node, then what is
    below its first child, then below its second child, and so on. *)
Fixpoint paths (n : node) : list path :=
  [] ::
    match n with
    | Text _ => []
    | Elem _ _ ks =>
        flat_map (fun ips => map (cons (fst ips)) (snd ips)) (numbered (map paths ks))
    end.

(** Document order on positions: an ancestor comes before its
    descendants, an earlier sibling before a later one. *)
Fixpoint before (p q : path) : bool :=
  match p, q with
  | [], [] => false
  | [], _ :: _ => true
  | _ :: _, [] => false
  | i :: p', j :: q' => Nat.ltb i j || (Nat.eqb i j && before p' q')
  end.

(** A node-set is a set: insertion keeps document order and drops a
    position that is already there. *)
Fixpoint add_node (p : path) (l : list path) : list path :=
  match l with
  | [] => [p]
  | q :: l' =>
      if before p q then p :: l
      else if before q p then q :: add_node p l'
      else l
  end.

Definition document_order (l : list path) : list path :=
  fold_right add_node [] l.

(** The nodes among [ps] that pass [test]. *)
Definition select (root : node) (test : node -> bool) (ps : list path) : list path :=
  List.filter
    (fun p => match node_at root p with
              | Some n => test n
              | None => false
              end) ps.

(** Axis [child::]. *)
Definition children (root : node) (p : path) : list path :=
  match node_at root p with
  | Some n => map (fun i => p ++ [i]) (seq 0 (length (kids_of n)))
  | None => []
  end.

(** Axis [ancestor-or-self::]: the node and what lies above it, that is
    the prefixes of its position. *)
Fixpoint prefixes (p : path) : list path :=
  [] ::
    match p with
    | [] => []
    | i :: p' => map (cons i) (prefixes p')
    end.

Definition child_step (root : node) (test : node -> bool) (ps : list path) : list path :=
  flat_map (fun p => select root test (children root p)) ps.

Definition ancestor_or_self_step (root : node) (test : node -> bool) (ps : list path)
  : list path :=
  flat_map (fun p => select root test (prefixes p)) ps.

Definition text_of (root : node) (p : path) : option string :=
  match node_at root p with
  | Some (Text s) => Some s
  | _ => None
  end.

Definition is_time_extent (n : node) : bool :=
  tag_is "Extent" n && attr_is "name" "time" n.

(** [//Layer[Name='x']/ancestor-or-self::Layer/Extent[@name='time']/text()],
    step by step; the result is the list of the selected text nodes in
    document order.  ([//Layer] reaches every [Layer] element, the root
    element included.) *)
Definition time_extent_nodes (root : node) (x : string) : list path :=
  let layers := select root (tag_is "Layer") (paths root) in
  let named := select root (name_is x) layers in
  let chain := ancestor_or_self_step root (tag_is "Layer") named in
  let extents := child_step root is_time_extent chain in
  let texts := child_step root is_text extents in
  document_order texts.

Definition time_extent_query (root : node) (x : string) : list string :=
  omap (text_of root) (time_extent_nodes root x).

(** *** The expression as text *)

(** [s] without the prefix [pre], if it starts with it. *)
Fixpoint strip_prefix (pre s : string) {struct pre} : option string :=
  match pre, s with
  | EmptyString, _ => Some s
  | String _ _, EmptyString => None
  | String a pre', String b s' => if Ascii.eqb a b then strip_prefix pre' s' else None
  end.

(** A literal opened by an apostrophe runs to the next apostrophe:
    the literal's content and what follows the closing apostrophe. *)
Fixpoint literal (s : string) : option (string * string) :=
  match s with
  | EmptyString => None
  | String c s' =>
      if Ascii.eqb c "'" then Some (EmptyString, s')
      else match literal s' with
           | Some (x, rest) => Some (String c x, rest)
           | None => None
           end
  end.

(** The one shape of expression this model interprets, and the literal
    [x] it compares [Name] with. *)
Definition time_extent_expression (expr : string) : option string :=
  match strip_prefix "//Layer[Name='" expr with
  | Some r =>
      match literal r with
      | Some (x, rest) =>
          if String.eqb rest "]/ancestor-or-self::Layer/Extent[@name='time']/text()"
          then Some x else None
      | None => None
      end
  | None => None
  end.

End Xml.

Import Xml.

(* ===================================================================== *)
(** ** mapscript *)
(* ===================================================================== *)

Module Mapscript.

(** A layer of a mapfile: its name, its CONNECTION string, its METADATA
    block and the rest of its settings. *)
Record layerObj : Type := mkLayer {
  name : string;
  connection : string;
  metadata : gmap string string;
  body : list (string * string)
}.

(** A mapfile: map-level settings and the layers in file order. *)
Record mapObj : Type := mkMap {
  settings : list (string * string);
  layers : list layerObj
}.

(** The position of the first layer called [nm] at or after position [i]
    ([msGetLayerIndex]). *)
Fixpoint layer_index (ls : list layerObj) (nm : string) (i : nat) : option nat :=
  match ls with
  | [] => None
  | l :: ls' => if String.eqb (name l) nm then Some i else layer_index ls' nm (S i)
  end.

Definition set_metadata (l : layerObj) (k v : string) : layerObj :=
  mkLayer (name l) (connection l) (<[k := v]> (metadata l)) (body l).

Definition set_layer (m : mapObj) (i : nat) (l : layerObj) : mapObj :=
  mkMap (settings m) (<[i := l]> (layers m)).

End Mapscript.

Import Mapscript.

(* ===================================================================== *)
(** ** The world the script runs in *)
(* ===================================================================== *)

Inductive level : Type := DEBUG_ | INFO_ | WARNING_ | ERROR_.

(** What the script writes to standard output. *)
Inductive output : Type :=
| Usage                        (* [parser.print_usage()] *)
| Line (s : string)            (* [print s] *)
| Message (e : exn)            (* [print str(e)] *)
| Traceback (e : exn).         (* [traceback.print_exc()] *)

(** The state a run reads and changes: the mapfiles on disk by path (as the
    library parses them: the library writes what it would read back), the
    paths that name an existing directory, the map objects alive in the
    interpreter by handle, the records the logging module emitted, standard
    output and the URLs requested over HTTP. *)
Record world : Type := mkWorld {
  files : gmap string mapObj;
  dirs : gset string;
  heap : list mapObj;
  log : list (level * string);
  stdout : list output;
  requests : list string
}.

(** What the outside answers. *)
Record environment : Type := mkEnv {
  (** What the server at [url] answers to a GET: the response body, or
      the error [urllib2] raises. *)
  http_get : string -> result string;
  (** [etree.parse(body)]: the tree, or the error raised. *)
  etree_parse : string -> result node;
  (** lxml's answer to an expression other than the one interpreted by
      [Xml.time_extent_expression]. *)
  xpath_other : node -> string -> result (list string);
  (** How the interactive session of [IPython.embed()] ends, the [import]
      before it included. *)
  IPython_embed : result unit;
  (** [time.asctime()] at the start and at the end, and the elapsed time
      as [%s] prints it. *)
  asctime_start : string;
  asctime_end : string;
  elapsed : string
}.

(** Computations of the script: they read and change the world and end in a
    value or a raised exception. *)
Definition M (A : Type) : Type := world -> result A * world.

#[global] Instance M_ret : MRet M := fun A a w => (Ok a, w).

#[global] Instance M_bind : MBind M := fun A B f m w =>
  match m w with
  | (Ok a, w') => f a w'
  | (Raise e, w') => (Raise e, w')
  end.

Definition raise {A : Type} (e : exn) : M A := fun w => (Raise e, w).

(** A pure evaluation inside a computation. *)
Definition lift {A : Type} (r : result A) : M A := fun w => (r, w).

(** [try: body  except <caught>: handler]. *)
Definition try_except {A : Type} (body : M A) (caught : exn -> bool) (handler : exn -> M A)
  : M A := fun w =>
  match body w with
  | (Ok a, w') => (Ok a, w')
  | (Raise e, w') => if caught e then handler e w' else (Raise e, w')
  end.

(** *** logging, print, os, sys *)

(** [logging.basicConfig(level=logging.INFO)]: records below INFO are
    dropped. *)
Definition enabled (l : level) : bool :=
  match l with
  | DEBUG_ => false
  | _ => true
  end.

Definition logging (l : level) (msg : string) : M unit := fun w =>
  (Ok tt,
   if enabled l
   then mkWorld (files w) (dirs w) (heap w) (log w ++ [(l, msg)]) (stdout w) (requests w)
   else w).

Definition INFO : string -> M unit := logging INFO_.
Definition WARN : string -> M unit := logging WARNING_.
Definition DEBUG : string -> M unit := logging DEBUG_.
Definition ERR : string -> M unit := logging ERROR_.

Definition print (o : output) : M unit := fun w =>
  (Ok tt, mkWorld (files w) (dirs w) (heap w) (log w) (stdout w ++ [o]) (requests w)).

(** [os.path.isdir(p)]: the empty path names nothing. *)
Definition isdir (p : string) : M bool := fun w =>
  (Ok (negb (String.eqb p "") && bool_decide (p ∈ dirs w)), w).

Definition EX_OK : Z := 0.
Definition EX_USAGE : Z := 64.

Definition sys_exit {A : Type} (status : Z) : M A := raise (SystemExit status).

(** [assert c]. *)
Definition assert (c : bool) : M unit :=
  if c then mret tt else raise AssertionError.

(** [l[0]]. *)
Definition item0 {A : Type} (l : list A) : result A :=
  match l with
  | x :: _ => Ok x
  | [] => Raise IndexError
  end.

(** *** mapscript objects *)

(** [mapscript.mapObj(fileName)]: parses the file into a new object. *)
Definition new_mapObj (fileName : string) : M value := fun w =>
  match files w !! fileName with
  | Some m =>
      (Ok (VMap (length (heap w))),
       mkWorld (files w) (dirs w) (heap w ++ [m]) (log w) (stdout w) (requests w))
  | None => (Raise MapServerError, w)
  end.

(** [map.getLayerByName(layerName)]: a reference to the layer inside the
    map object, or [None]. *)
Definition getLayerByName (map : value) (layerName : string) : M value := fun w =>
  match map with
  | VMap h =>
      match heap w !! h with
      | Some m =>
          match layer_index (layers m) layerName 0 with
          | Some i => (Ok (VLayer h i), w)
          | None => (Ok VNone, w)
          end
      | None => (Raise AttributeError, w)
      end
  | _ => (Raise AttributeError, w)
  end.

(** The layer object a value refers to; any other value has no layer
    attributes. *)
Definition deref (layer : value) : M layerObj := fun w =>
  match layer with
  | VLayer h i =>
      match heap w !! h with
      | Some m =>
          match layers m !! i with
          | Some l => (Ok l, w)
          | None => (Raise AttributeError, w)
          end
      | None => (Raise AttributeError, w)
      end
  | _ => (Raise AttributeError, w)
  end.

(** [layer.connection] and [layer.name]. *)
Definition get_connection (layer : value) : M string := l ← deref layer; mret (connection l).
Definition get_name (layer : value) : M string := l ← deref layer; mret (name l).

(** [layer.setMetaData(key, v)]: changes the layer inside its map object. *)
Definition setMetaData (layer : value) (key v : string) : M unit := fun w =>
  match layer with
  | VLayer h i =>
      match heap w !! h with
      | Some m =>
          match layers m !! i with
          | Some l =>
              (Ok tt,
               mkWorld (files w) (dirs w)
                       (<[h := set_layer m i (set_metadata l key v)]> (heap w))
                       (log w) (stdout w) (requests w))
          | None => (Raise AttributeError, w)
          end
      | None => (Raise AttributeError, w)
      end
  | _ => (Raise AttributeError, w)
  end.

(** [map.save(path)]: writes the map object, as it is now, to [path]. *)
Definition save (map path : value) : M unit := fun w =>
  match map, path with
  | VMap h, VStr p =>
      match heap w !! h with
      | Some m =>
          (Ok tt,
           mkWorld (<[p := m]> (files w)) (dirs w) (heap w) (log w) (stdout w) (requests w))
      | None => (Raise AttributeError, w)
      end
  | VMap _, _ => (Raise TypeError, w)
  | _, _ => (Raise AttributeError, w)
  end.

(** [os.path.join(a, b)] and [os.path.basename(p)] on values. *)
Definition os_path_join (a : value) (b : string) : M value :=
  match a with
  | VStr s => mret (VStr (PosixPath.join s b))
  | _ => raise AttributeError
  end.

(** [urllib2.urlopen(url)] and reading the response: one request. *)
Definition urlopen (env : environment) (url : string) : M string := fun w =>
  (http_get env url,
   mkWorld (files w) (dirs w) (heap w) (log w) (stdout w) (requests w ++ [url])).

(** [tree.xpath(expr)]. *)
Definition xpath (env : environment) (tree : node) (expr : string) : result (list string) :=
  match time_extent_expression expr with
  | Some x => Ok (time_extent_query tree x)
  | None => xpath_other env tree expr
  end.

(* ===================================================================== *)
(** ** The script *)
(* ===================================================================== *)

(** [None] or a string, as a value. *)
Definition opt_value (o : option string) : value :=
  match o with
  | Some s => VStr s
  | None => VNone
  end.

Definition MDKEY : string := "wms_timeextent".

(** [strTimeExtent.replace('-', '')  # purge '-'] (line 135). *)
Definition purge (strTimeExtent : string) : string :=
  replace strTimeExtent "-" "".

(** The request URL (lines 118-120). *)
Definition getCapabilities (connection : string) : result string :=
  format "%(URL)sSERVICE=WMS&VERSION=1.1.1&REQUEST=GetCapabilities"
         (Mapping {[ "URL" := VStr connection ]}).

(** The XPath expression (lines 131-133). *)
Definition extent_expression (layer_name : string) : result string :=
  format "//Layer[Name='%s']/ancestor-or-self::Layer/Extent[@name='time']/text()"
         (Single (VStr layer_name)).

(** The parsed command line: [LAYER] and [DEST] are lists of exactly one
    element ([nargs=1]) of which the script takes element 0; a source is an
    open file of which the script uses the name. *)
Record arguments : Type := mkArgs {
  verbose : bool;
  LAYER : string;
  SOURCE : list string;
  DEST : string
}.

Section Script.

Variable env : environment.

(** Lines 105-151.  The layer is changed in place.  (Closing the response
    after parsing has no effect on the world.) *)
Definition updateWMStimeExtent (layer : value) : M unit :=
  URL ← get_connection layer;
  url ← lift (getCapabilities URL);
  capabilitiesXml ← urlopen env url;
  capabilitiesTree ← lift (etree_parse env capabilitiesXml);
  try_except
    (layer_name ← get_name layer;
     expr ← lift (extent_expression layer_name);
     found ← lift (xpath env capabilitiesTree expr);
     strTimeExtent ← lift (item0 found);
     setMetaData layer MDKEY (purge strTimeExtent);;
     lift (IPython_embed env))
    (fun _ => true)
    (fun e =>
       at_ ← get_connection layer;
       msg ← lift (format "Unable to locate dates in capabilities document at: %s"
                          (Single (VStr at_)));
       ERR msg;;
       raise e).

(** Lines 171-176: the two assertions, then the name of the output
    file. *)
Definition output_name (fileName : string) (outFile outFolder : value) : M value :=
  assert (truthy (py_or outFile outFolder));;
  assert (negb (truthy (py_and outFile outFolder)));;
  if truthy outFolder
  then os_path_join outFolder (PosixPath.basename fileName)
  else mret outFile.

(** [locals()] in [process] once [layer] is bound. *)
Definition process_locals (fileName layerName : string)
           (outFile outFolder original layer : value) : gmap string value :=
  <["fileName" := VStr fileName]>
    (<["layerName" := VStr layerName]>
       (<["outFile" := outFile]>
          (<["outFolder" := outFolder]>
             (<["original" := original]>
                (<["layer" := layer]> ∅))))).

(** Lines 157-193. *)
Definition process (fileName layerName : string) (outFile outFolder : option string)
  : M unit :=
  let outFolder := opt_value outFolder in
  outFile ← output_name fileName (opt_value outFile) outFolder;
  original ← new_mapObj fileName;
  layer ← getLayerByName original layerName;
  let locals := process_locals fileName layerName outFile outFolder original layer in
  if eq_NoneType layer then
    msg ← lift (format "Unable to locate %(layerName) in file %(filepath)s"
                       (Mapping locals));
    WARN msg
  else
    try_except
      (updateWMStimeExtent layer)
      (fun e => match e with MapServerError => true | _ => false end)
      (fun _ =>
         part ← lift (format "within file %(filepath)s" (Mapping locals));
         WARN ("Unable to locate time metadata in layer %(layerName) " +:+ part));;
    save original outFile.

(** The loop of [main]: [handle.close()] has no effect on the world. *)
Fixpoint for_each_source (sources : list string) (layerName : string)
         (outfile folder : option string) : M unit :=
  match sources with
  | [] => mret tt
  | handle_name :: rest =>
      process handle_name layerName outfile folder;;
      for_each_source rest layerName outfile folder
  end.

(** Lines 206-215: which of [outfile] and [folder] the destination
    becomes. *)
Definition destination_kind (destination : string) : M (option string * option string) :=
  d ← isdir destination;
  if (d : bool) then
    msg ← lift (format "Output is to folder %s" (Single (VStr destination)));
    DEBUG msg;;
    mret (None, Some destination)
  else
    msg ← lift (format "Output is to file %s" (Single (VStr destination)));
    DEBUG msg;;
    mret (Some destination, None).

(** Lines 198-219. *)
Definition main (args : arguments) : M unit :=
  kind ← destination_kind (DEST args);
  for_each_source (SOURCE args) (LAYER args) (fst kind) (snd kind).

(** Lines 256-262: more than one source needs a folder. *)
Definition check_destination (parsed : arguments) : M unit :=
  if (1 <? length (SOURCE parsed))%nat then
    d ← isdir (DEST parsed);
    if negb d then print Usage;; sys_exit EX_USAGE else mret tt
  else mret tt.

(** Lines 225-282, from the parsed arguments on.  The run ends in
    [SystemExit] with the exit status, or in [KeyboardInterrupt]. *)
Definition script (parsed : arguments) : M unit :=
  try_except
    (check_destination parsed;;
     (if verbose parsed then INFO (asctime_start env) else mret tt);;
     main parsed;;
     (if verbose parsed then
        INFO (asctime_end env);;
        msg ← lift (format "TOTAL TIME IN SECONDS: %s" (Single (VStr (elapsed env))));
        INFO msg
      else mret tt);;
     sys_exit EX_OK)
    (fun e => match e with KeyboardInterrupt | SystemExit _ => false | _ => true end)
    (fun e =>
       print (Line "ERROR, UNEXPECTED EXCEPTION");;
       print (Message e);;
       print (Traceback e);;
       sys_exit 1).

End Script.

(* ===================================================================== *)
(** ** What the specification says, in its own words *)
(* ===================================================================== *)

(** "with all [-] characters removed": drop every dash, keep every other
    character in place. *)
Fixpoint without_dashes (s : string) : string :=
  match s with
  | EmptyString => EmptyString
  | String c s' =>
      if Ascii.eqb c "-"%char then without_dashes s' else String c (without_dashes s')
  end.

(** [c] occurs in [s]. *)
Fixpoint occurs (c : ascii) (s : string) : bool :=
  match s with
  | EmptyString => false
  | String d s' => Ascii.eqb c d || occurs c s'
  end.

(* ===================================================================== *)
(** ** Vocabulary for the statements *)
(* ===================================================================== *)

(** A computation leaves the observation [f] of the world as it found it,
    however it ends. *)
Definition stable {X A : Type} (f : world -> X) (m : M A) : Prop :=
  forall w, f (snd (m w)) = f w.

(** The warnings among the records logged. *)
Definition warnings (w : world) : list string :=
  omap (fun r => match fst r with WARNING_ => Some (snd r) | _ => None end) (log w).

(** The exit status of a run that ends by raising [e], if [e] is
    [SystemExit]. *)
Definition exit_status (r : result unit) : option Z :=
  match r with
  | Raise (SystemExit n) => Some n
  | _ => None
  end.

(** The name of the output file that [main] and [process] arrive at for
    one source: lines 206-215 of [main], then lines 171-176 of the call
    [process(handle.name, args.LAYER[0], outfile, folder)]. *)
Definition resolved_output (destination source : string) : M value :=
  kind ← destination_kind destination;
  output_name source (opt_value (fst kind)) (opt_value (snd kind)).

(** The element at position [m] is a [Layer] whose [Name] is [x]: "the
    layer matching the requested name". *)
Definition layer_named (root : node) (x : string) (m : path) : Prop :=
  exists n, node_at root m = Some n /\ tag_is "Layer" n = true /\ name_is x n = true.

(** The element at position [a] is a [Layer]. *)
Definition layer_at (root : node) (a : path) : Prop :=
  exists n, node_at root a = Some n /\ tag_is "Layer" n = true.

(** [e] is an [Extent] element named [time] of the element at [a] (one of
    its children): "an Extent element named 'time' of its own". *)
Definition time_extent_at (root : node) (a e : path) : Prop :=
  exists i n, e = a ++ [i] /\ node_at root e = Some n /\ is_time_extent n = true.

(** [t] is the content of a text node of the element at [e]. *)
Definition text_in (root : node) (e : path) (t : string) : Prop :=
  exists j, node_at root (e ++ [j]) = Some (Text t).

(** The node at [a] lies strictly above the node at [m]. *)
Definition proper_ancestor (a m : path) : Prop :=
  exists d, d <> [] /\ m = a ++ d.

(** [t] is the text of a time extent of a layer that is an ancestor of a
    layer named [x]: "the ancestor's extent text". *)
Definition inherited_extent_text (root : node) (x t : string) : Prop :=
  exists m a e,
    layer_named root x m /\ proper_ancestor a m /\ layer_at root a
    /\ time_extent_at root a e /\ text_in root e t.

(** The fixed query string of the request. *)
Definition WMS_QUERY : string := "SERVICE=WMS&VERSION=1.1.1&REQUEST=GetCapabilities".

(** One more request than before, a GetCapabilities request, or none. *)
Definition one_request_more (before after : list string) : Prop :=
  after = before \/ exists c, after = before ++ [c +:+ WMS_QUERY].

(** The world in which [main] starts once the check of the destination has
    passed: with [--verbose] the time was logged. *)
Definition started (env : environment) (parsed : arguments) (w : world) : world :=
  if verbose parsed
  then mkWorld (files w) (dirs w) (heap w) (log w ++ [(INFO_, asctime_start env)])
               (stdout w) (requests w)
  else w.

(** The world a run ends in when [main] has returned in [w]: with
    [--verbose] the time and the elapsed time were logged. *)
Definition finished (env : environment) (parsed : arguments) (w : world) : world :=
  if verbose parsed
  then mkWorld (files w) (dirs w) (heap w)
               (log w ++ [(INFO_, asctime_end env);
                          (INFO_, "TOTAL TIME IN SECONDS: " +:+ elapsed env)])
               (stdout w) (requests w)
  else w.

(* ===================================================================== *)
(** ** A stub server and a few mapfiles *)
(* ===================================================================== *)

Module Example.

(** [<Layer><Name>NDVI</Name><Extent name="time">2000-02-18,2000-03-06</Extent></Layer>] *)
Definition ndvi_capabilities : node :=
  Elem "Layer" []
       [ Elem "Name" [] [Text "NDVI"];
         Elem "Extent" [("name", "time")] [Text "2000-02-18,2000-03-06"] ].

(** [<Layer><Name>NDVI</Name></Layer>]: no time extent anywhere. *)
Definition no_extent_capabilities : node :=
  Elem "Layer" [] [ Elem "Name" [] [Text "NDVI"] ].

(** [<Layer><Extent name="time"/><Layer><Name>NDVI</Name></Layer></Layer>]:
    the parent layer has a time extent element, without text. *)
Definition empty_extent_capabilities : node :=
  Elem "Layer" []
       [ Elem "Extent" [("name", "time")] [];
         Elem "Layer" [] [ Elem "Name" [] [Text "NDVI"] ] ].

(** [<Layer><Extent name="time">1999-12-31</Extent><Layer><Name>NDVI</Name></Layer></Layer>] *)
Definition inherited_capabilities : node :=
  Elem "Layer" []
       [ Elem "Extent" [("name", "time")] [Text "1999-12-31"];
         Elem "Layer" [] [ Elem "Name" [] [Text "NDVI"] ] ].

(** A server that answers the capabilities request of [http://stub/wms?]
    with a document that parses to [tree]; the debugger session ends at
    once. *)
Definition stub (tree : node) : environment :=
  mkEnv (fun url =>
           if String.eqb url "http://stub/wms?SERVICE=WMS&VERSION=1.1.1&REQUEST=GetCapabilities"
           then Ok "<xml>" else Raise URLError)
        (fun _ => Ok tree)
        (fun _ _ => Raise XPathEvalError)
        (Ok tt) "" "" "".

Definition roads : layerObj :=
  mkLayer "roads" "" {[ "wms_title" := "Roads" ]} [("TYPE", "LINE")].

Definition ndvi : layerObj :=
  mkLayer "NDVI" "http://stub/wms?" {[ "wms_title" := "NDVI" ]} [("TYPE", "RASTER")].

(** [a.map] has the layers [roads] and [NDVI]; [c.map] only [roads]. *)
Definition a_map : mapObj := mkMap [("NAME", "a")] [roads; ndvi].
Definition c_map : mapObj := mkMap [("NAME", "c")] [roads].

Definition disk : world :=
  mkWorld (<["a.map" := a_map]> (<["c.map" := c_map]> ∅)) {[ "outdir" ]} [] [] [] [].

(** [<Layer><Extent name="time">1999-12-31</Extent><Layer><Name>NDVI</Name>
    <Extent name="time">2000-02-18,2000-03-06</Extent></Layer></Layer>]: the
    parent layer has a time extent before the layer [NDVI], which has one
    of its own. *)
Definition shadowed_capabilities : node :=
  Elem "Layer" []
       [ Elem "Extent" [("name", "time")] [Text "1999-12-31"];
         Elem "Layer" []
              [ Elem "Name" [] [Text "NDVI"];
                Elem "Extent" [("name", "time")] [Text "2000-02-18,2000-03-06"] ] ].

(** No server answers. *)
Definition offline : environment :=
  mkEnv (fun _ => Raise URLError) (fun _ => Raise XMLSyntaxError)
        (fun _ _ => Raise XPathEvalError) (Ok tt) "" "" "".

(** The stub server, where the debugger session ends in [e]. *)
Definition stub_debugger (tree : node) (e : exn) : environment :=
  mkEnv (http_get (stub tree)) (etree_parse (stub tree)) (xpath_other (stub tree))
        (Raise e) "" "" "".

End Example.

(* ===================================================================== *)
(** ** Properties *)
(* ===================================================================== *)

(** *** Running computations *)

Section Running.

Context {A B : Type}.

Lemma bind_ok (m : M A) (f : A -> M B) (w w' : world) (a : A) :
  m w = (Ok a, w') -> (m ≫= f) w = f a w'.
Proof. intros H. unfold mbind, M_bind. now rewrite H. Qed.

Lemma bind_raise (m : M A) (f : A -> M B) (w w' : world) (e : exn) :
  m w = (Raise e, w') -> (m ≫= f) w = (Raise e, w').
Proof. intros H. unfold mbind, M_bind. now rewrite H. Qed.

Lemma try_ok (m : M A) caught (handler : exn -> M A) (w w' : world) (a : A) :
  m w = (Ok a, w') -> try_except m caught handler w = (Ok a, w').
Proof. intros H. unfold try_except. now rewrite H. Qed.

Lemma try_caught (m : M A) caught (handler : exn -> M A) (w w' : world) (e : exn) :
  m w = (Raise e, w') -> caught e = true ->
  try_except m caught handler w = handler e w'.
Proof. intros H C. unfold try_except. now rewrite H, C. Qed.

Lemma try_passed (m : M A) caught (handler : exn -> M A) (w w' : world) (e : exn) :
  m w = (Raise e, w') -> caught e = false ->
  try_except m caught handler w = (Raise e, w').
Proof. intros H C. unfold try_except. now rewrite H, C. Qed.

End Running.

(** *** What a computation leaves alone *)

Section Stability.

Context {X : Type} (f : world -> X).

Lemma stable_ret {A} (a : A) : stable f (mret a).
Proof. intros w. reflexivity. Qed.

Lemma stable_lift {A} (r : result A) : stable f (lift r).
Proof. intros w. reflexivity. Qed.

Lemma stable_raise {A} (e : exn) : stable f (@raise A e).
Proof. intros w. reflexivity. Qed.

Lemma stable_bind {A B} (m : M A) (k : A -> M B) :
  stable f m -> (forall a, stable f (k a)) -> stable f (m ≫= k).
Proof.
  intros Hm Hk w. unfold mbind, M_bind.
  specialize (Hm w). destruct (m w) as [[a|e] w1]; cbn [snd] in *.
  - now rewrite Hk.
  - exact Hm.
Qed.

(** What follows a pure evaluation that raises is never run. *)
Lemma stable_after_raise {A B} (e : exn) (k : A -> M B) :
  stable f (lift (Raise e) ≫= k).
Proof. intros w. reflexivity. Qed.

Lemma stable_try {A} (m : M A) caught (handler : exn -> M A) :
  stable f m -> (forall e, stable f (handler e)) -> stable f (try_except m caught handler).
Proof.
  intros Hm Hh w. unfold try_except.
  specialize (Hm w). destruct (m w) as [[a|e] w1]; cbn [snd] in *; [exact Hm|].
  destruct (caught e); cbn [snd]; [now rewrite Hh | exact Hm].
Qed.

Lemma stable_if {A} (c : bool) (m1 m2 : M A) :
  stable f m1 -> stable f m2 -> stable f (if c then m1 else m2).
Proof. now destruct c. Qed.

Lemma stable_assert (c : bool) : stable f (assert c).
Proof. destruct c; intros w; reflexivity. Qed.

Lemma stable_isdir (p : string) : stable f (isdir p).
Proof. intros w. reflexivity. Qed.

Lemma stable_getLayerByName (map : value) (nm : string) : stable f (getLayerByName map nm).
Proof.
  intros w. unfold getLayerByName.
  destruct map; try reflexivity.
  destruct (heap w !! h); [|reflexivity].
  now destruct (layer_index _ _ _).
Qed.

Lemma stable_deref (layer : value) : stable f (deref layer).
Proof.
  intros w. unfold deref.
  destruct layer; try reflexivity.
  destruct (heap w !! h) as [m|]; [|reflexivity].
  now destruct (layers m !! i).
Qed.

Lemma stable_get_connection (layer : value) : stable f (get_connection layer).
Proof. apply stable_bind; [apply stable_deref | intros; apply stable_ret]. Qed.

Lemma stable_get_name (layer : value) : stable f (get_name layer).
Proof. apply stable_bind; [apply stable_deref | intros; apply stable_ret]. Qed.

Lemma stable_os_path_join (a : value) (b : string) : stable f (os_path_join a b).
Proof. destruct a; intros w; reflexivity. Qed.

Lemma stable_output_name (fileName : string) (outFile outFolder : value) :
  stable f (output_name fileName outFile outFolder).
Proof.
  unfold output_name.
  apply stable_bind; [apply stable_assert | intros _].
  apply stable_bind; [apply stable_assert | intros _].
  apply stable_if; [apply stable_os_path_join | apply stable_ret].
Qed.

End Stability.

(** A primitive against a concrete observation of the world. *)
Ltac stable_prim :=
  let w := fresh "w" in
  intros w;
  unfold logging, ERR, WARN, INFO, DEBUG, print, new_mapObj, setMetaData, save, urlopen;
  repeat case_match; reflexivity.

Lemma stable_warnings_logging (l : level) (msg : string) :
  l <> WARNING_ -> stable warnings (logging l msg).
Proof.
  intros Hl w. unfold logging, warnings. cbn [snd].
  destruct (enabled l); [|reflexivity].
  cbn [log]. rewrite omap_app. cbn.
  destruct l; try contradiction; cbn; apply app_nil_r.
Qed.

(** Splits a computation along its binds, handlers and branches. *)
Ltac stab :=
  repeat first
    [ apply stable_after_raise
    | apply stable_ret | apply stable_lift | apply stable_raise
    | apply stable_assert | apply stable_isdir
    | apply stable_getLayerByName | apply stable_get_connection
    | apply stable_get_name | apply stable_output_name
    | apply stable_bind; [|intros ?]
    | apply stable_try; [|intros ?]
    | apply stable_if
    | apply stable_warnings_logging; discriminate
    | solve [stable_prim] ].

(** *** No warning is ever logged *)

Section Warnings.

Variable env : environment.

Lemma updateWMStimeExtent_no_warning (layer : value) :
  stable warnings (updateWMStimeExtent env layer).
Proof. unfold updateWMStimeExtent. stab. Qed.

(** Both calls of [WARN] in [process] have a template that [%] rejects:
    [%(layerName) i] asks for a number and [filepath] is no local
    variable.  The message is never built, so nothing is logged. *)
Lemma process_no_warning (fileName layerName : string) (outFile outFolder : option string) :
  stable warnings (process env fileName layerName outFile outFolder).
Proof. unfold process. cbv zeta. stab. Qed.

Lemma for_each_source_no_warning sources layerName outfile folder :
  stable warnings (for_each_source env sources layerName outfile folder).
Proof.
  induction sources as [|src rest IH]; cbn [for_each_source].
  - apply stable_ret.
  - apply stable_bind; [apply process_no_warning | intros _; exact IH].
Qed.

Lemma script_no_warning (parsed : arguments) :
  stable warnings (script env parsed).
Proof.
  unfold script, check_destination, main, destination_kind, sys_exit.
  repeat first
    [ apply for_each_source_no_warning
    | apply stable_bind; [|intros ?]
    | apply stable_try; [|intros ?]
    | apply stable_if
    | apply stable_ret | apply stable_lift | apply stable_raise | apply stable_isdir
    | apply stable_warnings_logging; discriminate
    | solve [stable_prim] ].
Qed.

End Warnings.

(** *** The request URL *)

Lemma getCapabilities_appends (connection : string) :
  getCapabilities connection = Ok (connection +:+ WMS_QUERY).
Proof. reflexivity. Qed.

Lemma deref_layer (w : world) (h i : nat) (m : mapObj) (l : layerObj) :
  heap w !! h = Some m -> layers m !! i = Some l ->
  deref (VLayer h i) w = (Ok l, w).
Proof. intros Hh Hi. unfold deref. now rewrite Hh, Hi. Qed.

Lemma get_connection_layer (w : world) (h i : nat) (m : mapObj) (l : layerObj) :
  heap w !! h = Some m -> layers m !! i = Some l ->
  get_connection (VLayer h i) w = (Ok (connection l), w).
Proof.
  intros Hh Hi. unfold get_connection.
  now rewrite (bind_ok _ _ _ _ _ (deref_layer _ _ _ _ _ Hh Hi)).
Qed.

Lemma get_name_layer (w : world) (h i : nat) (m : mapObj) (l : layerObj) :
  heap w !! h = Some m -> layers m !! i = Some l ->
  get_name (VLayer h i) w = (Ok (name l), w).
Proof.
  intros Hh Hi. unfold get_name.
  now rewrite (bind_ok _ _ _ _ _ (deref_layer _ _ _ _ _ Hh Hi)).
Qed.

(** C9: for every layer, the one request the Fetcher makes goes to the
    layer's connection string with the fixed query
    [SERVICE=WMS&VERSION=1.1.1&REQUEST=GetCapabilities] appended, whatever
    the connection string contains and however the fetch ends. *)
Theorem C9_request_url (env : environment) (w : world) (h i : nat)
        (m : mapObj) (l : layerObj) :
  heap w !! h = Some m ->
  layers m !! i = Some l ->
  getCapabilities (connection l)
    = Ok (connection l +:+ "SERVICE=WMS&VERSION=1.1.1&REQUEST=GetCapabilities")
  /\ requests (snd (updateWMStimeExtent env (VLayer h i) w))
     = requests w ++ [connection l +:+ "SERVICE=WMS&VERSION=1.1.1&REQUEST=GetCapabilities"].
Proof.
  intros Hh Hi. split; [reflexivity|].
  unfold updateWMStimeExtent.
  rewrite (bind_ok _ _ _ _ _ (get_connection_layer _ _ _ _ _ Hh Hi)).
  rewrite (bind_ok _ _ w w (connection l +:+ WMS_QUERY)) by reflexivity.
  set (url := connection l +:+ WMS_QUERY).
  set (w1 := mkWorld (files w) (dirs w) (heap w) (log w) (stdout w) (requests w ++ [url])).
  destruct (http_get env url) as [xml|e] eqn:Hget.
  - rewrite (bind_ok _ _ w w1 xml) by (unfold urlopen; now rewrite Hget).
    match goal with |- requests (snd (?k w1)) = _ => assert (S : stable requests k) by stab end.
    now rewrite S.
  - now rewrite (bind_raise _ _ w w1 e) by (unfold urlopen; now rewrite Hget).
Qed.

Lemma C9_request_url_witness :
  requests (snd (updateWMStimeExtent (Example.stub Example.ndvi_capabilities) (VLayer 0 1)
                                     (mkWorld ∅ ∅ [Example.a_map] [] [] [])))
  = ["http://stub/wms?SERVICE=WMS&VERSION=1.1.1&REQUEST=GetCapabilities"].
Proof.
  apply (C9_request_url (Example.stub Example.ndvi_capabilities)
                        (mkWorld ∅ ∅ [Example.a_map] [] [] []) 0 1
                        Example.a_map Example.ndvi).
  - reflexivity.
  - reflexivity.
Defined.

(** *** The name of the output file *)

Section Output_name.

Lemma output_name_pure (fileName : string) (outFile outFolder : value) (w : world) :
  snd (output_name fileName outFile outFolder w) = w.
Proof.
  unfold output_name, assert, os_path_join, mbind, M_bind, mret, M_ret, raise.
  destruct (truthy (py_or outFile outFolder)); [|reflexivity].
  destruct (negb (truthy (py_and outFile outFolder))); [|reflexivity].
  destruct (truthy outFolder); [|reflexivity].
  now destruct outFolder.
Qed.

(** A non-empty string is provided for the file and nothing for the
    folder. *)
Lemma output_name_file (fileName f : string) (outFolder : option string) (w : world) :
  f <> "" -> truthy (opt_value outFolder) = false ->
  output_name fileName (VStr f) (opt_value outFolder) w = (Ok (VStr f), w).
Proof.
  intros Hf Ho. destruct f as [|c f]; [contradiction|].
  destruct outFolder as [[|c' d]|]; try discriminate Ho; reflexivity.
Qed.

(** A non-empty string is provided for the folder and nothing for the
    file. *)
Lemma output_name_folder (fileName d : string) (outFile : option string) (w : world) :
  d <> "" -> truthy (opt_value outFile) = false ->
  output_name fileName (opt_value outFile) (VStr d) w
    = (Ok (VStr (PosixPath.join d (PosixPath.basename fileName))), w).
Proof.
  intros Hd Ho. destruct d as [|c d]; [contradiction|].
  destruct outFile as [[|c' f]|]; try discriminate Ho; reflexivity.
Qed.

Lemma output_name_assertion (fileName : string) (outFile outFolder : value) (w : world) :
  truthy outFile = truthy outFolder ->
  output_name fileName outFile outFolder w = (Raise AssertionError, w).
Proof.
  intros H. unfold output_name, py_or, py_and.
  destruct (truthy outFile) eqn:E1; rewrite <- H; [|reflexivity].
  rewrite E1. reflexivity.
Qed.

Lemma isdir_true (p : string) (w : world) :
  fst (isdir p w) = Ok true -> p <> "" /\ isdir p w = (Ok true, w).
Proof.
  unfold isdir. cbn [fst]. intros H. split.
  - intros ->. discriminate H.
  - now injection H as ->.
Qed.

Lemma isdir_false (p : string) (w : world) :
  fst (isdir p w) = Ok false -> isdir p w = (Ok false, w).
Proof. unfold isdir. cbn [fst]. intros H. now injection H as ->. Qed.

Lemma destination_kind_folder (destination : string) (w : world) :
  fst (isdir destination w) = Ok true ->
  destination_kind destination w = (Ok (None, Some destination), w).
Proof.
  intros H. apply isdir_true in H as [_ H]. unfold destination_kind.
  now rewrite (bind_ok _ _ _ _ _ H).
Qed.

Lemma destination_kind_file (destination : string) (w : world) :
  fst (isdir destination w) = Ok false ->
  destination_kind destination w = (Ok (Some destination, None), w).
Proof.
  intros H. apply isdir_false in H. unfold destination_kind.
  now rewrite (bind_ok _ _ _ _ _ H).
Qed.

End Output_name.

(** C10: [process] wants exactly one of [outFile] and [outFolder].  An
    argument counts as provided when it is a non-empty string ([None] and
    the empty string are both false for the assertions).  When both are
    missing or both are provided the call stops with [AssertionError] and
    the world, the file system included, is as before; when exactly one is
    provided both asserted conditions are true and the output name is
    determined. *)
Theorem C10_exactly_one_destination (env : environment) (fileName layerName : string)
        (outFile outFolder : option string) (w : world) :
  let provided o := truthy (opt_value o) in
  (provided outFile = provided outFolder ->
   process env fileName layerName outFile outFolder w = (Raise AssertionError, w))
  /\ (provided outFile <> provided outFolder ->
      truthy (py_or (opt_value outFile) (opt_value outFolder)) = true
      /\ negb (truthy (py_and (opt_value outFile) (opt_value outFolder))) = true
      /\ exists out,
          output_name fileName (opt_value outFile) (opt_value outFolder) w = (Ok (VStr out), w)).
Proof.
  intros provided. subst provided. cbv beta. split.
  - intros H. unfold process. cbv zeta.
    now rewrite (bind_raise _ _ _ _ _ (output_name_assertion fileName _ _ w H)).
  - intros H.
    destruct outFile as [[|c f]|], outFolder as [[|c' d]|]; cbn in H; try congruence.
    all: repeat split; try reflexivity.
    all: eexists; reflexivity.
Qed.

Lemma C10_exactly_one_destination_witness :
  process (mkEnv (fun _ => Raise URLError) (fun _ => Raise XMLSyntaxError)
                 (fun _ _ => Raise XPathEvalError) (Ok tt) "" "" "")
          "a.map" "NDVI" (Some "out.map") (Some "outdir")
          (mkWorld ∅ ∅ [] [] [] [])
  = (Raise AssertionError, mkWorld ∅ ∅ [] [] [] [])
  /\ exists out,
      output_name "a.map" (VStr "out.map") VNone (mkWorld ∅ ∅ [] [] [] [])
      = (Ok (VStr out), mkWorld ∅ ∅ [] [] [] []).
Proof.
  pose proof (C10_exactly_one_destination
                (mkEnv (fun _ => Raise URLError) (fun _ => Raise XMLSyntaxError)
                       (fun _ _ => Raise XPathEvalError) (Ok tt) "" "" "")
                "a.map" "NDVI" (Some "out.map") (Some "outdir")
                (mkWorld ∅ ∅ [] [] [] [])) as [Hboth _].
  pose proof (C10_exactly_one_destination
                (mkEnv (fun _ => Raise URLError) (fun _ => Raise XMLSyntaxError)
                       (fun _ _ => Raise XPathEvalError) (Ok tt) "" "" "")
                "a.map" "NDVI" (Some "out.map") None
                (mkWorld ∅ ∅ [] [] [] [])) as [_ Hone].
  split.
  - apply Hboth. reflexivity.
  - apply Hone. discriminate.
Defined.

(** C6, as the code has it: with one source file and a destination that is
    not empty and not an existing directory, the output file of that source
    is the destination itself. *)
Theorem C6_single_source_file_destination (source destination : string) (w : world) :
  fst (isdir destination w) = Ok false ->
  destination <> "" ->
  resolved_output destination source w = (Ok (VStr destination), w).
Proof.
  intros Hd Hne. unfold resolved_output.
  rewrite (bind_ok _ _ _ _ _ (destination_kind_file _ _ Hd)). cbn [fst snd opt_value].
  now apply (output_name_file source destination None).
Qed.

Lemma C6_single_source_file_destination_witness :
  resolved_output "out.map" "a.map" (mkWorld ∅ {[ "outdir" ]} [] [] [] [])
  = (Ok (VStr "out.map"), mkWorld ∅ {[ "outdir" ]} [] [] [] []).
Proof.
  apply (C6_single_source_file_destination "a.map" "out.map").
  - vm_compute. reflexivity.
  - discriminate.
Defined.

(** C6, as the claim has it, fails: with one source file [a.map] and the
    existing directory [outdir] as destination, the output file is
    [outdir/a.map], not [outdir]. *)
Lemma C6_single_source_directory_destination :
  let w := mkWorld ∅ {[ "outdir" ]} [] [] [] [] in
  fst (resolved_output "outdir" "a.map" w) = Ok (VStr "outdir/a.map")
  /\ fst (resolved_output "outdir" "a.map" w) <> Ok (VStr "outdir").
Proof.
  assert (E : fst (resolved_output "outdir" "a.map" (mkWorld ∅ {[ "outdir" ]} [] [] [] []))
              = Ok (VStr "outdir/a.map")) by (vm_compute; reflexivity).
  cbv zeta. rewrite E. split; [reflexivity | discriminate].
Qed.

(** The empty destination is no file name for [process]. *)
Lemma empty_destination_asserts (source : string) (w : world) :
  resolved_output "" source w = (Raise AssertionError, w).
Proof. reflexivity. Qed.

Lemma main_folder (env : environment) (args : arguments) (w : world) :
  fst (isdir (DEST args) w) = Ok true ->
  main env args w = for_each_source env (SOURCE args) (LAYER args) None (Some (DEST args)) w.
Proof.
  intros Hd. unfold main.
  now rewrite (bind_ok _ _ _ _ _ (destination_kind_folder _ _ Hd)).
Qed.

(** C8: when the destination is an existing directory, every source file is
    handed to [process] with that directory as its folder, and its output
    file is [os.path.join(DEST, os.path.basename(source))]. *)
Theorem C8_directory_destination (env : environment) (parsed : arguments) (w : world)
        (source : string) :
  fst (isdir (DEST parsed) w) = Ok true ->
  source ∈ SOURCE parsed ->
  main env parsed w
    = for_each_source env (SOURCE parsed) (LAYER parsed) None (Some (DEST parsed)) w
  /\ resolved_output (DEST parsed) source w
     = (Ok (VStr (PosixPath.join (DEST parsed) (PosixPath.basename source))), w).
Proof.
  intros Hd _. split; [now apply main_folder|].
  unfold resolved_output.
  rewrite (bind_ok _ _ _ _ _ (destination_kind_folder _ _ Hd)). cbn [fst snd opt_value].
  apply isdir_true in Hd as [Hne _].
  now apply (output_name_folder source (DEST parsed) None).
Qed.

Lemma C8_directory_destination_witness :
  resolved_output "outdir" "/tmp/some/mapfile2.map" (mkWorld ∅ {[ "outdir" ]} [] [] [] [])
  = (Ok (VStr "outdir/mapfile2.map"), mkWorld ∅ {[ "outdir" ]} [] [] [] []).
Proof.
  apply (C8_directory_destination
           (mkEnv (fun _ => Raise URLError) (fun _ => Raise XMLSyntaxError)
                  (fun _ _ => Raise XPathEvalError) (Ok tt) "" "" "")
           (mkArgs false "NDVI" ["/tmp/some/mapfile.map"; "/tmp/some/mapfile2.map"] "outdir")
           (mkWorld ∅ {[ "outdir" ]} [] [] [] [])
           "/tmp/some/mapfile2.map").
  - vm_compute. reflexivity.
  - cbn [SOURCE]. set_solver.
Defined.

(** C7: with more than one source file and a destination that is not an
    existing directory, the run prints the usage text and ends in
    [SystemExit] with the status [os.EX_USAGE]; nothing else in the world
    changes: no file is opened, written or requested and no record is
    logged. *)
Theorem C7_usage_error (env : environment) (parsed : arguments) (w : world) :
  (1 < length (SOURCE parsed))%nat ->
  fst (isdir (DEST parsed) w) = Ok false ->
  script env parsed w
    = (Raise (SystemExit EX_USAGE),
       mkWorld (files w) (dirs w) (heap w) (log w) (stdout w ++ [Usage]) (requests w))
  /\ exit_status (fst (script env parsed w)) = Some 64.
Proof.
  intros Hn Hd.
  assert (E : script env parsed w
              = (Raise (SystemExit EX_USAGE),
                 mkWorld (files w) (dirs w) (heap w) (log w) (stdout w ++ [Usage]) (requests w))).
  { unfold script.
    apply try_passed; [|reflexivity].
    apply bind_raise. unfold check_destination.
    apply Nat.ltb_lt in Hn. rewrite Hn.
    now rewrite (bind_ok _ _ _ _ _ (isdir_false _ _ Hd)). }
  rewrite E. split; reflexivity.
Qed.

Lemma C7_usage_error_witness :
  exit_status
    (fst (script (mkEnv (fun _ => Raise URLError) (fun _ => Raise XMLSyntaxError)
                        (fun _ _ => Raise XPathEvalError) (Ok tt) "" "" "")
                 (mkArgs false "NDVI" ["a.map"; "b.map"] "out.map")
                 (mkWorld ∅ {[ "outdir" ]} [] [] [] [])))
  = Some 64.
Proof.
  apply (C7_usage_error
           (mkEnv (fun _ => Raise URLError) (fun _ => Raise XMLSyntaxError)
                  (fun _ _ => Raise XPathEvalError) (Ok tt) "" "" "")
           (mkArgs false "NDVI" ["a.map"; "b.map"] "out.map")
           (mkWorld ∅ {[ "outdir" ]} [] [] [] [])).
  - cbn. lia.
  - vm_compute. reflexivity.
Defined.

Lemma append_empty_r (s : string) : s +:+ "" = s.
Proof.
  induction s as [|c s IH]; [reflexivity|].
  change (String c s +:+ "") with (String c (s +:+ "")). now rewrite IH.
Qed.

(** *** What [process] does with one file *)

Section Process.

Variable env : environment.

Lemma new_mapObj_ok (w : world) (fileName : string) (m : mapObj) :
  files w !! fileName = Some m ->
  new_mapObj fileName w
    = (Ok (VMap (length (heap w))),
       mkWorld (files w) (dirs w) (heap w ++ [m]) (log w) (stdout w) (requests w)).
Proof. intros H. unfold new_mapObj. now rewrite H. Qed.

Lemma layer_index_found (ls : list layerObj) (nm : string) (k i : nat) :
  layer_index ls nm k = Some i ->
  exists l, ls !! (i - k)%nat = Some l /\ name l = nm /\ (k <= i)%nat.
Proof.
  revert k. induction ls as [|l ls IH]; intros k H; [discriminate|].
  cbn [layer_index] in H. destruct (String.eqb (name l) nm) eqn:E.
  - injection H as <-. exists l. rewrite Nat.sub_diag.
    apply String.eqb_eq in E. auto.
  - apply IH in H as (l' & Hl & Hn & Hk). exists l'.
    replace (i - k)%nat with (S (i - S k)) by lia. cbn. repeat split; auto; lia.
Qed.

Lemma layer_index_absent (ls : list layerObj) (nm : string) (k : nat) :
  layer_index ls nm k = None <-> Forall (fun l => name l <> nm) ls.
Proof.
  revert k. induction ls as [|l ls IH]; intros k; cbn [layer_index].
  - split; [constructor | reflexivity].
  - destruct (String.eqb (name l) nm) eqn:E.
    + apply String.eqb_eq in E. split; [discriminate|]. intros H. inversion H; subst. contradiction.
    + apply String.eqb_neq in E. rewrite IH. split; [now constructor | now inversion 1].
Qed.

Lemma updateWMStimeExtent_None (w : world) :
  updateWMStimeExtent env VNone w = (Raise AttributeError, w).
Proof. reflexivity. Qed.

Lemma format_ERR (c : string) :
  format "Unable to locate dates in capabilities document at: %s" (Single (VStr c))
  = Ok ("Unable to locate dates in capabilities document at: " +:+ c).
Proof.
  rewrite <- (append_empty_r c) at 2. reflexivity.
Qed.

Lemma updateWMStimeExtent_found (w : world) (h i : nat) (m : mapObj) (l : layerObj)
      (xml expr t : string) (tree : node) (rest : list string) :
  heap w !! h = Some m ->
  layers m !! i = Some l ->
  http_get env (connection l +:+ WMS_QUERY) = Ok xml ->
  etree_parse env xml = Ok tree ->
  extent_expression (name l) = Ok expr ->
  xpath env tree expr = Ok (t :: rest) ->
  IPython_embed env = Ok tt ->
  updateWMStimeExtent env (VLayer h i) w
    = (Ok tt,
       mkWorld (files w) (dirs w)
               (<[h := set_layer m i (set_metadata l MDKEY (purge t))]> (heap w))
               (log w) (stdout w) (requests w ++ [connection l +:+ WMS_QUERY])).
Proof.
  intros Hh Hi Hget Hparse Hexpr Hx Hipy.
  unfold updateWMStimeExtent.
  rewrite (bind_ok _ _ _ _ _ (get_connection_layer _ _ _ _ _ Hh Hi)).
  rewrite (bind_ok _ _ w w (connection l +:+ WMS_QUERY)) by reflexivity.
  set (w1 := mkWorld (files w) (dirs w) (heap w) (log w) (stdout w)
                     (requests w ++ [connection l +:+ WMS_QUERY])).
  rewrite (bind_ok _ _ w w1 xml) by (unfold urlopen; now rewrite Hget).
  rewrite (bind_ok _ _ w1 w1 tree) by (unfold lift; now rewrite Hparse).
  apply try_ok.
  rewrite (bind_ok _ _ _ _ _ (get_name_layer w1 _ _ _ _ Hh Hi)).
  rewrite (bind_ok _ _ w1 w1 expr) by (unfold lift; now rewrite Hexpr).
  rewrite (bind_ok _ _ w1 w1 (t :: rest)) by (unfold lift; now rewrite Hx).
  rewrite (bind_ok _ _ w1 w1 t) by reflexivity.
  unfold mbind, M_bind, setMetaData, lift. cbn [heap w1]. rewrite Hh, Hi, Hipy. reflexivity.
Qed.

Lemma updateWMStimeExtent_not_found (w : world) (h i : nat) (m : mapObj) (l : layerObj)
      (xml expr : string) (tree : node) :
  heap w !! h = Some m ->
  layers m !! i = Some l ->
  http_get env (connection l +:+ WMS_QUERY) = Ok xml ->
  etree_parse env xml = Ok tree ->
  extent_expression (name l) = Ok expr ->
  xpath env tree expr = Ok [] ->
  updateWMStimeExtent env (VLayer h i) w
    = (Raise IndexError,
       mkWorld (files w) (dirs w) (heap w)
               (log w ++ [(ERROR_, "Unable to locate dates in capabilities document at: "
                                     +:+ connection l)])
               (stdout w) (requests w ++ [connection l +:+ WMS_QUERY])).
Proof.
  intros Hh Hi Hget Hparse Hexpr Hx.
  unfold updateWMStimeExtent.
  rewrite (bind_ok _ _ _ _ _ (get_connection_layer _ _ _ _ _ Hh Hi)).
  rewrite (bind_ok _ _ w w (connection l +:+ WMS_QUERY)) by reflexivity.
  set (w1 := mkWorld (files w) (dirs w) (heap w) (log w) (stdout w)
                     (requests w ++ [connection l +:+ WMS_QUERY])).
  rewrite (bind_ok _ _ w w1 xml) by (unfold urlopen; now rewrite Hget).
  rewrite (bind_ok _ _ w1 w1 tree) by (unfold lift; now rewrite Hparse).
  rewrite (try_caught _ _ _ w1 w1 IndexError); [|
    rewrite (bind_ok _ _ _ _ _ (get_name_layer w1 _ _ _ _ Hh Hi));
    rewrite (bind_ok _ _ w1 w1 expr) by (unfold lift; now rewrite Hexpr);
    rewrite (bind_ok _ _ w1 w1 []) by (unfold lift; now rewrite Hx);
    reflexivity | reflexivity].
  rewrite (bind_ok _ _ _ _ _ (get_connection_layer w1 _ _ _ _ Hh Hi)).
  rewrite (bind_ok _ _ w1 w1 _ (f_equal (fun r => (r, w1)) (format_ERR (connection l)))).
  reflexivity.
Qed.

Lemma heap_new (hp : list mapObj) (m : mapObj) : (hp ++ [m]) !! length hp = Some m.
Proof. now apply list_lookup_middle. Qed.

Lemma heap_update (hp : list mapObj) (m m' : mapObj) :
  <[length hp := m']> (hp ++ [m]) = hp ++ [m'].
Proof. rewrite insert_app_r_alt by lia. now rewrite Nat.sub_diag. Qed.

Lemma getLayerByName_new (w : world) (m : mapObj) (layerName : string) (hp : list mapObj) :
  heap w = hp ++ [m] ->
  getLayerByName (VMap (length hp)) layerName w
    = (Ok (match layer_index (layers m) layerName 0 with
           | Some i => VLayer (length hp) i
           | None => VNone
           end), w).
Proof.
  intros H. unfold getLayerByName. rewrite H, heap_new.
  now destruct (layer_index _ _ _).
Qed.

Lemma process_found (w : world) (fileName layerName : string)
      (outFile outFolder : option string) (out : string) (m : mapObj) (i : nat)
      (l : layerObj) (xml expr t : string) (tree : node) (rest : list string) :
  fst (output_name fileName (opt_value outFile) (opt_value outFolder) w) = Ok (VStr out) ->
  files w !! fileName = Some m ->
  layer_index (layers m) layerName 0 = Some i ->
  layers m !! i = Some l ->
  http_get env (connection l +:+ WMS_QUERY) = Ok xml ->
  etree_parse env xml = Ok tree ->
  extent_expression layerName = Ok expr ->
  xpath env tree expr = Ok (t :: rest) ->
  IPython_embed env = Ok tt ->
  let m' := set_layer m i (set_metadata l MDKEY (purge t)) in
  process env fileName layerName outFile outFolder w
  = (Ok tt,
     mkWorld (<[out := m']> (files w)) (dirs w) (heap w ++ [m']) (log w) (stdout w)
             (requests w ++ [connection l +:+ WMS_QUERY])).
Proof.
  intros Hout Hfile Hidx Hl Hget Hparse Hexpr Hx Hipy m'.
  assert (Hname : name l = layerName).
  { apply layer_index_found in Hidx as (l0 & Hl0 & Hn & _).
    rewrite Nat.sub_0_r in Hl0. congruence. }
  unfold process. cbv zeta.
  assert (Hout' : output_name fileName (opt_value outFile) (opt_value outFolder) w
                  = (Ok (VStr out), w)).
  { rewrite (surjective_pairing (output_name _ _ _ w)), Hout. now rewrite output_name_pure. }
  rewrite (bind_ok _ _ _ _ _ Hout').
  rewrite (bind_ok _ _ _ _ _ (new_mapObj_ok _ _ _ Hfile)).
  set (w1 := mkWorld (files w) (dirs w) (heap w ++ [m]) (log w) (stdout w) (requests w)).
  rewrite (bind_ok _ _ _ _ _ (getLayerByName_new w1 m layerName (heap w) eq_refl)).
  rewrite Hidx. cbn [eq_NoneType].
  rewrite <- Hname in Hexpr.
  assert (Hh : heap w1 !! length (heap w) = Some m) by apply heap_new.
  pose proof (updateWMStimeExtent_found w1 _ _ _ _ _ _ _ _ _ Hh Hl Hget Hparse Hexpr Hx Hipy)
    as Hupd.
  cbn [w1 files dirs heap log stdout requests] in Hupd. rewrite heap_update in Hupd.
  rewrite (bind_ok _ _ _ _ _ (try_ok _ _ _ _ _ _ Hupd)).
  unfold save. cbn [heap]. now rewrite heap_new.
Qed.
(** The layer is not in the mapfile: the guard [layer == types.NoneType]
    is false for [None], the Fetcher is called with [None] and its first
    attribute access raises. *)
Lemma process_layer_absent (w : world) (fileName layerName : string)
      (outFile outFolder : option string) (out : value) (m : mapObj) :
  fst (output_name fileName (opt_value outFile) (opt_value outFolder) w) = Ok out ->
  files w !! fileName = Some m ->
  layer_index (layers m) layerName 0 = None ->
  process env fileName layerName outFile outFolder w
  = (Raise AttributeError,
     mkWorld (files w) (dirs w) (heap w ++ [m]) (log w) (stdout w) (requests w)).
Proof.
  intros Hout Hfile Hidx.
  unfold process. cbv zeta.
  assert (Hout' : output_name fileName (opt_value outFile) (opt_value outFolder) w
                  = (Ok out, w)).
  { rewrite (surjective_pairing (output_name _ _ _ w)), Hout. now rewrite output_name_pure. }
  rewrite (bind_ok _ _ _ _ _ Hout').
  rewrite (bind_ok _ _ _ _ _ (new_mapObj_ok _ _ _ Hfile)).
  set (w1 := mkWorld (files w) (dirs w) (heap w ++ [m]) (log w) (stdout w) (requests w)).
  rewrite (bind_ok _ _ _ _ _ (getLayerByName_new w1 m layerName (heap w) eq_refl)).
  rewrite Hidx. reflexivity.
Qed.

(** The query finds nothing: [IndexError] leaves the Fetcher after the
    error record, [except MapServerError] does not catch it and the save
    is not reached. *)
Lemma process_extent_absent (w : world) (fileName layerName : string)
      (outFile outFolder : option string) (out : value) (m : mapObj) (i : nat)
      (l : layerObj) (xml expr : string) (tree : node) :
  fst (output_name fileName (opt_value outFile) (opt_value outFolder) w) = Ok out ->
  files w !! fileName = Some m ->
  layer_index (layers m) layerName 0 = Some i ->
  layers m !! i = Some l ->
  http_get env (connection l +:+ WMS_QUERY) = Ok xml ->
  etree_parse env xml = Ok tree ->
  extent_expression layerName = Ok expr ->
  xpath env tree expr = Ok [] ->
  process env fileName layerName outFile outFolder w
  = (Raise IndexError,
     mkWorld (files w) (dirs w) (heap w ++ [m])
             (log w ++ [(ERROR_, "Unable to locate dates in capabilities document at: "
                                   +:+ connection l)])
             (stdout w) (requests w ++ [connection l +:+ WMS_QUERY])).
Proof.
  intros Hout Hfile Hidx Hl Hget Hparse Hexpr Hx.
  assert (Hname : name l = layerName).
  { apply layer_index_found in Hidx as (l0 & Hl0 & Hn & _).
    rewrite Nat.sub_0_r in Hl0. congruence. }
  unfold process. cbv zeta.
  assert (Hout' : output_name fileName (opt_value outFile) (opt_value outFolder) w
                  = (Ok out, w)).
  { rewrite (surjective_pairing (output_name _ _ _ w)), Hout. now rewrite output_name_pure. }
  rewrite (bind_ok _ _ _ _ _ Hout').
  rewrite (bind_ok _ _ _ _ _ (new_mapObj_ok _ _ _ Hfile)).
  set (w1 := mkWorld (files w) (dirs w) (heap w ++ [m]) (log w) (stdout w) (requests w)).
  rewrite (bind_ok _ _ _ _ _ (getLayerByName_new w1 m layerName (heap w) eq_refl)).
  rewrite Hidx. cbn [eq_NoneType].
  rewrite <- Hname in Hexpr.
  assert (Hh : heap w1 !! length (heap w) = Some m) by apply heap_new.
  pose proof (updateWMStimeExtent_not_found w1 _ _ _ _ _ _ _ Hh Hl Hget Hparse Hexpr Hx)
    as Hupd.
  apply bind_raise. now apply try_passed.
Qed.

(** The debugger session (or its [import]) raises: the metadata entry is
    already set in the map object, the Fetcher logs its error record and
    re-raises, and the map is not saved. *)
Lemma process_debugger_raises (w : world) (fileName layerName : string)
      (outFile outFolder : option string) (out : value) (m : mapObj) (i : nat)
      (l : layerObj) (xml expr t : string) (tree : node) (rest : list string) (e : exn) :
  fst (output_name fileName (opt_value outFile) (opt_value outFolder) w) = Ok out ->
  files w !! fileName = Some m ->
  layer_index (layers m) layerName 0 = Some i ->
  layers m !! i = Some l ->
  http_get env (connection l +:+ WMS_QUERY) = Ok xml ->
  etree_parse env xml = Ok tree ->
  extent_expression layerName = Ok expr ->
  xpath env tree expr = Ok (t :: rest) ->
  IPython_embed env = Raise e ->
  e <> MapServerError ->
  fst (process env fileName layerName outFile outFolder w) = Raise e
  /\ files (snd (process env fileName layerName outFile outFolder w)) = files w.
Proof.
  intros Hout Hfile Hidx Hl Hget Hparse Hexpr Hx Hipy He.
  assert (Hname : name l = layerName).
  { apply layer_index_found in Hidx as (l0 & Hl0 & Hn & _).
    rewrite Nat.sub_0_r in Hl0. congruence. }
  unfold process. cbv zeta.
  assert (Hout' : output_name fileName (opt_value outFile) (opt_value outFolder) w
                  = (Ok out, w)).
  { rewrite (surjective_pairing (output_name _ _ _ w)), Hout. now rewrite output_name_pure. }
  rewrite (bind_ok _ _ _ _ _ Hout').
  rewrite (bind_ok _ _ _ _ _ (new_mapObj_ok _ _ _ Hfile)).
  set (w1 := mkWorld (files w) (dirs w) (heap w ++ [m]) (log w) (stdout w) (requests w)).
  rewrite (bind_ok _ _ _ _ _ (getLayerByName_new w1 m layerName (heap w) eq_refl)).
  rewrite Hidx. cbn [eq_NoneType].
  rewrite <- Hname in Hexpr.
  assert (Hh : heap w1 !! length (heap w) = Some m) by apply heap_new.
  set (m' := set_layer m i (set_metadata l MDKEY (purge t))).
  set (w2 := mkWorld (files w) (dirs w) (heap w ++ [m'])
                     (log w ++ [(ERROR_, "Unable to locate dates in capabilities document at: "
                                           +:+ connection l)])
                     (stdout w) (requests w ++ [connection l +:+ WMS_QUERY])).
  assert (Hupd : updateWMStimeExtent env (VLayer (length (heap w)) i) w1 = (Raise e, w2)).
  { unfold updateWMStimeExtent.
    rewrite (bind_ok _ _ _ _ _ (get_connection_layer _ _ _ _ _ Hh Hl)).
    rewrite (bind_ok _ _ w1 w1 (connection l +:+ WMS_QUERY)) by reflexivity.
    set (w1' := mkWorld (files w1) (dirs w1) (heap w1) (log w1) (stdout w1)
                        (requests w1 ++ [connection l +:+ WMS_QUERY])).
    rewrite (bind_ok _ _ w1 w1' xml) by (unfold urlopen; now rewrite Hget).
    rewrite (bind_ok _ _ w1' w1' tree) by (unfold lift; now rewrite Hparse).
    set (w1'' := mkWorld (files w) (dirs w) (heap w ++ [m']) (log w) (stdout w)
                         (requests w ++ [connection l +:+ WMS_QUERY])).
    assert (Hl' : layers m' !! i = Some (set_metadata l MDKEY (purge t))).
    { cbn [m' set_layer layers]. apply list_lookup_insert_eq. now apply lookup_lt_Some in Hl. }
    rewrite (try_caught _ _ _ w1' w1'' e); [| | reflexivity].
    - rewrite (bind_ok _ _ _ _ _ (get_connection_layer w1'' _ _ m' _ (heap_new _ _) Hl')).
      cbn [set_metadata connection].
      rewrite (bind_ok _ _ w1'' w1'' _
                 (f_equal (fun r => (r, w1'')) (format_ERR (connection l)))).
      reflexivity.
    - rewrite (bind_ok _ _ _ _ _ (get_name_layer w1' _ _ _ _ Hh Hl)).
      rewrite (bind_ok _ _ w1' w1' expr) by (unfold lift; now rewrite Hexpr).
      rewrite (bind_ok _ _ w1' w1' (t :: rest)) by (unfold lift; now rewrite Hx).
      rewrite (bind_ok _ _ w1' w1' t) by reflexivity.
      unfold mbind, M_bind, setMetaData, lift. cbn [heap w1' w1]. rewrite heap_new, Hl, Hipy.
      now rewrite heap_update. }
  assert (Hc : match e with MapServerError => true | _ => false end = false)
    by (destruct e; congruence).
  rewrite (bind_raise _ _ w1 w2 e) by (now apply try_passed).
  split; reflexivity.
Qed.

End Process.

(** C3: when the fetch succeeds (the request is answered, the answer
    parses, the query has a first match [t] and the debugger session left on
    the success path ends), [process] sets the [wms_timeextent] entry of the
    layer to [t] without its dashes and saves the map to the output path.
    Nothing else differs from the source: the entry is the only change to
    the layer's metadata, the layer keeps its name, connection and other
    settings, the other layers and the map-level settings are the same, and
    no other file is written. *)
Theorem C3_successful_fetch (env : environment) (w : world) (fileName layerName : string)
        (outFile outFolder : option string) (out : string) (m : mapObj) (i : nat)
        (l : layerObj) (xml expr t : string) (tree : node) (rest : list string) :
  fst (output_name fileName (opt_value outFile) (opt_value outFolder) w) = Ok (VStr out) ->
  files w !! fileName = Some m ->
  layer_index (layers m) layerName 0 = Some i ->
  layers m !! i = Some l ->
  http_get env (connection l +:+ "SERVICE=WMS&VERSION=1.1.1&REQUEST=GetCapabilities") = Ok xml ->
  etree_parse env xml = Ok tree ->
  extent_expression layerName = Ok expr ->
  xpath env tree expr = Ok (t :: rest) ->
  IPython_embed env = Ok tt ->
  let l' := set_metadata l MDKEY (purge t) in
  let m' := set_layer m i l' in
  process env fileName layerName outFile outFolder w
  = (Ok tt,
     mkWorld (<[out := m']> (files w)) (dirs w) (heap w ++ [m']) (log w) (stdout w)
             (requests w ++ [connection l +:+ "SERVICE=WMS&VERSION=1.1.1&REQUEST=GetCapabilities"]))
  /\ metadata l' = <["wms_timeextent" := purge t]> (metadata l)
  /\ name l' = name l /\ connection l' = connection l /\ body l' = body l
  /\ settings m' = settings m
  /\ length (layers m') = length (layers m)
  /\ layers m' !! i = Some l'
  /\ (forall j, j <> i -> layers m' !! j = layers m !! j).
Proof.
  intros Hout Hfile Hidx Hl Hget Hparse Hexpr Hx Hipy l' m'.
  split; [exact (process_found env w _ _ _ _ _ _ _ _ _ _ _ _ _
                                Hout Hfile Hidx Hl Hget Hparse Hexpr Hx Hipy)|].
  repeat split; try reflexivity.
  - cbn [m' set_layer layers]. apply length_insert.
  - cbn [m' set_layer layers]. apply list_lookup_insert_eq. now apply lookup_lt_Some in Hl.
  - intros j Hj. cbn [m' set_layer layers]. now apply list_lookup_insert_ne.
Qed.

Lemma C3_successful_fetch_witness :
  process (Example.stub Example.ndvi_capabilities) "a.map" "NDVI" (Some "out.map") None
          Example.disk
  = (Ok tt,
     mkWorld (<["out.map" :=
                  mkMap [("NAME", "a")]
                        [ Example.roads;
                          mkLayer "NDVI" "http://stub/wms?"
                                  (<["wms_timeextent" := "20000218,20000306"]>
                                     {[ "wms_title" := "NDVI" ]})
                                  [("TYPE", "RASTER")] ]]>
                (files Example.disk))
             {[ "outdir" ]}
             [ mkMap [("NAME", "a")]
                     [ Example.roads;
                       mkLayer "NDVI" "http://stub/wms?"
                               (<["wms_timeextent" := "20000218,20000306"]>
                                  {[ "wms_title" := "NDVI" ]})
                               [("TYPE", "RASTER")] ] ]
             [] []
             ["http://stub/wms?SERVICE=WMS&VERSION=1.1.1&REQUEST=GetCapabilities"]).
Proof.
  apply (C3_successful_fetch
           (Example.stub Example.ndvi_capabilities) Example.disk "a.map" "NDVI"
           (Some "out.map") None "out.map" Example.a_map 1 Example.ndvi "<xml>"
           "//Layer[Name='NDVI']/ancestor-or-self::Layer/Extent[@name='time']/text()"
           "2000-02-18,2000-03-06" Example.ndvi_capabilities []).
  all: vm_compute; reflexivity.
Defined.

(** C1, at a mapfile without the layer: [c.map] has no layer [NDVI].  The
    call of [process] ends in [AttributeError] and logs nothing; the run
    over [c.map] and [a.map] ends with exit status 1, without a warning,
    and [a.map], which has the layer, is never fetched nor written. *)
Theorem C1_missing_layer_aborts :
  let env := Example.stub Example.ndvi_capabilities in
  let run := script env (mkArgs false "NDVI" ["c.map"; "a.map"] "outdir") Example.disk in
  fst (process env "c.map" "NDVI" None (Some "outdir") Example.disk) = Raise AttributeError
  /\ log (snd (process env "c.map" "NDVI" None (Some "outdir") Example.disk)) = []
  /\ exit_status (fst run) = Some 1
  /\ log (snd run) = []
  /\ requests (snd run) = []
  /\ files (snd run) = files Example.disk.
Proof. vm_compute. repeat split; reflexivity. Qed.

(** C2, at a capabilities document without any time extent: the Fetcher
    logs an error record and ends in [IndexError], which [process] does not
    catch; no warning is logged and the mapfile is not saved. *)
Theorem C2_missing_extent_aborts :
  let env := Example.stub Example.no_extent_capabilities in
  let after := process env "a.map" "NDVI" (Some "out.map") None Example.disk in
  Xml.time_extent_query Example.no_extent_capabilities "NDVI" = []
  /\ fst after = Raise IndexError
  /\ log (snd after)
     = [(ERROR_, "Unable to locate dates in capabilities document at: http://stub/wms?")]
  /\ warnings (snd after) = []
  /\ files (snd after) !! "out.map" = None
  /\ files (snd after) = files Example.disk
  /\ exit_status (fst (script env (mkArgs false "NDVI" ["a.map"] "out.map") Example.disk))
     = Some 1.
Proof. vm_compute. repeat split; reflexivity. Qed.

(** *** The XPath query *)

Section Positions.

Lemma node_at_app (n : node) (p q : path) :
  node_at n (p ++ q) = match node_at n p with Some k => node_at k q | None => None end.
Proof.
  revert n. induction p as [|i p IH]; intros n; [reflexivity|].
  cbn [app node_at]. destruct (kids_of n !! i); [apply IH | reflexivity].
Qed.

Lemma node_at_child (n : node) (p : path) (i : nat) :
  node_at n (p ++ [i])
  = match node_at n p with Some k => kids_of k !! i | None => None end.
Proof.
  rewrite node_at_app. destruct (node_at n p) as [k|]; [|reflexivity].
  cbn [node_at]. now destruct (kids_of k !! i).
Qed.

Lemma in_combine_seq {A : Type} (l : list A) (k i : nat) (x : A) :
  In (i, x) (combine (seq k (length l)) l) <-> (k <= i)%nat /\ l !! (i - k)%nat = Some x.
Proof.
  revert k. induction l as [|y l IH]; intros k; cbn [length seq combine In].
  - split; [tauto | intros [_ H]; discriminate H].
  - rewrite IH. split.
    + intros [E | [Hk Hl]].
      * injection E as -> ->. rewrite Nat.sub_diag. auto.
      * split; [lia|]. replace (i - k)%nat with (S (i - S k)) by lia. exact Hl.
    + intros [Hk Hl]. destruct (decide (k = i)) as [->|Hne].
      * left. rewrite Nat.sub_diag in Hl. cbn in Hl. congruence.
      * right. split; [lia|]. replace (i - k)%nat with (S (i - S k)) in Hl by lia. exact Hl.
Qed.

Lemma in_numbered {A : Type} (l : list A) (i : nat) (x : A) :
  In (i, x) (numbered l) <-> l !! i = Some x.
Proof.
  unfold numbered. rewrite in_combine_seq, Nat.sub_0_r. split; [tauto | split; [lia | assumption]].
Qed.

(** Every node of the tree is listed. *)
Lemma paths_complete (p : path) : forall n k, node_at n p = Some k -> In p (paths n).
Proof.
  induction p as [|i p IH]; intros n k H.
  - destruct n; left; reflexivity.
  - cbn [node_at] in H. destruct (kids_of n !! i) as [c|] eqn:Hc; [|discriminate].
    destruct n as [s|tag attrs ks]; [discriminate Hc|]. cbn [kids_of] in Hc.
    cbn [paths]. right. apply in_flat_map. exists (i, paths c). split.
    + apply in_numbered. rewrite list_lookup_fmap, Hc. reflexivity.
    + cbn [fst snd]. apply in_map. now apply (IH c k).
Qed.

Lemma before_total (p : path) : forall q, before p q = false -> before q p = false -> p = q.
Proof.
  induction p as [|i p IH]; intros [|j q] H1 H2; try reflexivity; try discriminate.
  cbn [before] in H1, H2.
  apply orb_false_iff in H1 as [L1 E1]. apply orb_false_iff in H2 as [L2 E2].
  apply Nat.ltb_ge in L1, L2. assert (i = j) by lia. subst j.
  rewrite Nat.eqb_refl in E1, E2. cbn in E1, E2. f_equal. now apply IH.
Qed.

Lemma in_add_node (p q : path) (l : list path) :
  In p (add_node q l) <-> p = q \/ In p l.
Proof.
  induction l as [|r l IH]; cbn [add_node In].
  - intuition.
  - destruct (before q r) eqn:B1; cbn [In]; [intuition|].
    destruct (before r q) eqn:B2; cbn [In].
    + rewrite IH. intuition.
    + pose proof (before_total _ _ B1 B2) as ->. intuition.
Qed.

Lemma in_document_order (p : path) (l : list path) :
  In p (document_order l) <-> In p l.
Proof.
  induction l as [|q l IH]; cbn [document_order fold_right In]; [reflexivity|].
  fold (document_order l). rewrite in_add_node, IH. intuition.
Qed.

Variable root : node.

Lemma in_select (test : node -> bool) (ps : list path) (p : path) :
  In p (select root test ps)
  <-> In p ps /\ exists n, node_at root p = Some n /\ test n = true.
Proof.
  unfold select. rewrite filter_In. split; intros [Hp H]; (split; [exact Hp|]).
  - destruct (node_at root p) as [n|]; [eauto | discriminate].
  - destruct H as (n & -> & Ht). exact Ht.
Qed.

Lemma in_children (p c : path) :
  In c (children root p) <-> exists i, c = p ++ [i] /\ is_Some (node_at root c).
Proof.
  unfold children. split.
  - destruct (node_at root p) as [n|] eqn:Hn; [|intros []].
    intros H. apply in_map_iff in H as (i & <- & Hi). exists i. split; [reflexivity|].
    rewrite node_at_child, Hn. apply lookup_lt_is_Some. apply in_seq in Hi. lia.
  - intros (i & -> & Hc). rewrite node_at_child in Hc.
    destruct (node_at root p) as [n|]; [|destruct Hc; discriminate].
    apply in_map_iff. exists i. split; [reflexivity|].
    apply in_seq. apply lookup_lt_is_Some in Hc. lia.
Qed.

Lemma in_prefixes (a m : path) : In a (prefixes m) <-> exists d, m = a ++ d.
Proof.
  revert a. induction m as [|i m IH]; intros a; cbn [prefixes In].
  - split.
    + intros [<- | []]. now exists [].
    + intros (d & H). left. symmetry in H. now apply app_eq_nil in H as [-> _].
  - split.
    + intros [<- | H]; [now exists (i :: m)|].
      apply in_map_iff in H as (a' & <- & H). apply IH in H as (d & ->). now exists d.
    + intros (d & H). destruct a as [|j a]; [now left|]. right.
      cbn [app] in H. injection H as -> ->. apply in_map. apply IH. now exists d.
Qed.

Lemma in_child_step (test : node -> bool) (ps : list path) (c : path) :
  In c (child_step root test ps)
  <-> exists p i n, In p ps /\ c = p ++ [i] /\ node_at root c = Some n /\ test n = true.
Proof.
  unfold child_step. rewrite in_flat_map. split.
  - intros (p & Hp & Hc). apply in_select in Hc as (Hc & n & Hn & Ht).
    apply in_children in Hc as (i & -> & _). now exists p, i, n.
  - intros (p & i & n & Hp & -> & Hn & Ht). exists p. split; [exact Hp|].
    apply in_select. split; [|eauto]. apply in_children. exists i. now rewrite Hn.
Qed.

Lemma in_ancestor_or_self_step (test : node -> bool) (ps : list path) (a : path) :
  In a (ancestor_or_self_step root test ps)
  <-> exists d n, In (a ++ d) ps /\ node_at root a = Some n /\ test n = true.
Proof.
  unfold ancestor_or_self_step. rewrite in_flat_map. split.
  - intros (m & Hm & Ha). apply in_select in Ha as (Ha & n & Hn & Ht).
    apply in_prefixes in Ha as (d & ->). now exists d, n.
  - intros (d & n & Hm & Hn & Ht). exists (a ++ d). split; [exact Hm|].
    apply in_select. split; [|eauto]. apply in_prefixes. now exists d.
Qed.

End Positions.

(** The result of the query is in document order. *)

Section Order.

Lemma before_trans (p : path) : forall q r,
  before p q = true -> before q r = true -> before p r = true.
Proof.
  induction p as [|i p IH]; intros [|j q] [|k r] H1 H2; try discriminate; try reflexivity.
  cbn [before] in *.
  apply orb_true_iff in H1 as [L1 | E1]; apply orb_true_iff in H2 as [L2 | E2].
  - apply Nat.ltb_lt in L1, L2. apply orb_true_iff. left. apply Nat.ltb_lt. lia.
  - apply andb_true_iff in E2 as [E2 _]. apply Nat.eqb_eq in E2 as ->. now rewrite L1.
  - apply andb_true_iff in E1 as [E1 _]. apply Nat.eqb_eq in E1 as ->. now rewrite L2.
  - apply andb_true_iff in E1 as [E1 B1]. apply andb_true_iff in E2 as [E2 B2].
    apply Nat.eqb_eq in E1 as ->. apply Nat.eqb_eq in E2 as ->.
    rewrite Nat.eqb_refl, (IH _ _ B1 B2). apply orb_true_r.
Qed.

Lemma before_irrefl (p : path) : before p p = false.
Proof.
  induction p as [|i p IH]; [reflexivity|].
  cbn [before]. now rewrite Nat.ltb_irrefl, Nat.eqb_refl, IH.
Qed.

(** A node-set built by [add_node] is strictly increasing in document
    order: no position occurs twice. *)
Lemma add_node_sorted (p : path) (l : list path) :
  StronglySorted (fun a b => before a b = true) l ->
  StronglySorted (fun a b => before a b = true) (add_node p l).
Proof.
  induction 1 as [|q l Hs IH Hq]; cbn [add_node].
  - repeat constructor.
  - destruct (before p q) eqn:B1.
    + constructor; [now constructor|]. constructor; [exact B1|].
      apply Forall_forall. intros r Hr. rewrite Forall_forall in Hq.
      apply (before_trans _ q); [exact B1|]. now apply Hq.
    + destruct (before q p) eqn:B2; [|now constructor].
      constructor; [exact IH|].
      apply Forall_forall. intros r Hr. apply list_elem_of_In, in_add_node in Hr as [->|Hr]; [exact B2|].
      rewrite Forall_forall in Hq. apply Hq. now apply list_elem_of_In.
Qed.

Lemma document_order_sorted (l : list path) :
  StronglySorted (fun a b => before a b = true) (document_order l).
Proof.
  induction l as [|p l IH]; cbn [document_order fold_right]; [constructor|].
  now apply add_node_sorted.
Qed.

End Order.

Section Query.
Variables (root : node) (x : string).

(** The text nodes the expression selects. *)
Lemma in_time_extent_nodes (p : path) :
  In p (time_extent_nodes root x)
  <-> exists a d e j nt,
      layer_named root x (a ++ d) /\ layer_at root a /\ time_extent_at root a e
      /\ p = e ++ [j] /\ node_at root p = Some nt /\ is_text nt = true.
Proof.
  unfold time_extent_nodes. rewrite in_document_order, in_child_step. split.
  - intros (e & j & nt & He & -> & Hnt & Ht).
    apply in_child_step in He as (a & i & ne & Ha & -> & Hne & Hte).
    apply in_ancestor_or_self_step in Ha as (d & na & Hm & Hna & Hla).
    apply in_select in Hm as (Hm & nm & Hnm & Hx).
    apply in_select in Hm as (_ & nm' & Hnm' & Hl).
    assert (nm' = nm) by congruence. subst nm'.
    exists a, d, (a ++ [i]), j, nt. repeat split; eauto.
    + now exists nm.
    + now exists na.
    + now exists i, ne.
  - intros (a & d & e & j & nt & (nm & Hnm & Hl & Hx) & (na & Hna & Hla)
            & (i & ne & -> & Hne & Hte) & -> & Hnt & Ht).
    exists (a ++ [i]), j, nt. repeat split; auto.
    apply in_child_step. exists a, i, ne. repeat split; auto.
    apply in_ancestor_or_self_step. exists d, na. repeat split; auto.
    apply in_select. split; [|eauto].
    apply in_select. split; [|eauto].
    now apply (paths_complete _ _ nm).
Qed.

Lemma in_time_extent_query (t : string) :
  In t (time_extent_query root x)
  <-> exists a d e,
      layer_named root x (a ++ d) /\ layer_at root a /\ time_extent_at root a e
      /\ text_in root e t.
Proof.
  unfold time_extent_query. rewrite <- list_elem_of_In, list_elem_of_omap. split.
  - intros (p & Hp & Ht). apply list_elem_of_In, in_time_extent_nodes in Hp
      as (a & d & e & j & nt & Hm & Ha & He & -> & Hnt & _).
    unfold text_of in Ht. rewrite Hnt in Ht. destruct nt as [s|]; [|discriminate].
    injection Ht as ->. exists a, d, e. repeat split; auto. now exists j.
  - intros (a & d & e & Hm & Ha & He & (j & Hj)).
    exists (e ++ [j]). split.
    + apply list_elem_of_In, in_time_extent_nodes. now exists a, d, e, j, (Text t).
    + unfold text_of. now rewrite Hj.
Qed.

End Query.

Lemma literal_closed (x rest : string) :
  occurs "'" x = false -> literal (x +:+ String "'" rest) = Some (x, rest).
Proof.
  induction x as [|c x IH]; intros H.
  - reflexivity.
  - cbn [occurs] in H. apply orb_false_iff in H as [Hc Hx].
    change (String c x +:+ String "'" rest) with (String c (x +:+ String "'" rest)).
    cbn [literal]. rewrite Ascii.eqb_sym, Hc. now rewrite IH.
Qed.

Lemma extent_expression_read (x : string) :
  occurs "'" x = false ->
  exists expr, extent_expression x = Ok expr /\ time_extent_expression expr = Some x.
Proof.
  intros H. eexists. split; [reflexivity|].
  unfold time_extent_expression.
  cbn [strip_prefix Ascii.eqb Bool.eqb str].
  rewrite literal_closed by exact H. reflexivity.
Qed.

(** A layer name with an apostrophe closes the literal early: the text is
    another expression, which this model leaves to lxml. *)
Lemma apostrophe_changes_expression (env : environment) (tree : node) :
  exists expr,
    extent_expression "O'Neill" = Ok expr
    /\ time_extent_expression expr = None
    /\ xpath env tree expr = xpath_other env tree expr.
Proof. eexists. repeat split; reflexivity. Qed.

(** C5, as the code has it: for a layer name without an apostrophe, when no
    layer of that name has a time extent element of its own and a layer
    above one of them has a time extent with a text node, the query of the
    Fetcher returns a non-empty list, the Fetcher takes its first item, and
    that item is the text of a time extent of an ancestor layer.  (By C3 it
    is stored without its dashes.) *)
Theorem C5_inherited_time_extent (env : environment) (tree : node) (x : string) :
  occurs "'" x = false ->
  (forall m e, layer_named tree x m -> ~ time_extent_at tree m e) ->
  (exists t, inherited_extent_text tree x t) ->
  exists expr t rest,
    extent_expression x = Ok expr
    /\ xpath env tree expr = Ok (t :: rest)
    /\ item0 (t :: rest) = Ok t
    /\ inherited_extent_text tree x t.
Proof.
  intros Hq Hown (t0 & m0 & a0 & e0 & Hm0 & (d0 & _ & ->) & Ha0 & He0 & Ht0).
  destruct (extent_expression_read x Hq) as (expr & Hexpr & Hread).
  assert (Hin : In t0 (time_extent_query tree x)).
  { apply in_time_extent_query. now exists a0, d0, e0. }
  destruct (time_extent_query tree x) as [|t rest] eqn:Hres; [destruct Hin|].
  exists expr, t, rest. repeat split; auto.
  - unfold xpath. now rewrite Hread, Hres.
  - assert (Ht : In t (time_extent_query tree x)) by (rewrite Hres; now left).
    apply in_time_extent_query in Ht as (a & d & e & Hm & Ha & He & Ht).
    exists (a ++ d), a, e. repeat split; auto.
    exists d. split; [|reflexivity]. intros ->. rewrite app_nil_r in Hm.
    exact (Hown a e Hm He).
Qed.

Lemma inherited_example_own_extent (m e : path) :
  layer_named Example.inherited_capabilities "NDVI" m ->
  ~ time_extent_at Example.inherited_capabilities m e.
Proof.
  intros (n & Hn & Hl & Hx) (i & ne & -> & Hne & Hte).
  rewrite node_at_child, Hn in Hne.
  pose proof (paths_complete _ _ _ Hn) as Hm. cbv in Hm.
  repeat (destruct Hm as [<- | Hm]); [.. | destruct Hm];
    cbv in Hn; injection Hn as <-; vm_compute in Hl, Hx; try discriminate.
  destruct i as [|[|i]]; cbv in Hne; try discriminate.
  injection Hne as <-. vm_compute in Hte. discriminate.
Qed.

Lemma C5_inherited_time_extent_witness :
  exists expr t rest,
    extent_expression "NDVI" = Ok expr
    /\ xpath (Example.stub Example.inherited_capabilities)
             Example.inherited_capabilities expr = Ok (t :: rest)
    /\ item0 (t :: rest) = Ok t
    /\ inherited_extent_text Example.inherited_capabilities "NDVI" t.
Proof.
  apply (C5_inherited_time_extent
           (Example.stub Example.inherited_capabilities)
           Example.inherited_capabilities "NDVI").
  - reflexivity.
  - exact inherited_example_own_extent.
  - exists "1999-12-31", [1%nat], [], [0%nat]. repeat split.
    + eexists. repeat split; reflexivity.
    + exists [1%nat]. split; [discriminate | reflexivity].
    + eexists. split; reflexivity.
    + exists 0%nat. eexists. repeat split; reflexivity.
    + exists 0%nat. reflexivity.
Defined.

(** C5, as the claim has it, fails: in
    [<Layer><Extent name="time"/><Layer><Name>NDVI</Name></Layer></Layer>]
    the layer [NDVI] has no time extent element of its own and the layer
    above it has one, but that element holds no text node: the query
    returns nothing and the Fetcher ends in [IndexError] instead of
    returning a text. *)
Lemma C5_ancestor_extent_without_text :
  let tree := Example.empty_extent_capabilities in
  let env := Example.stub tree in
  (forall m e, layer_named tree "NDVI" m -> ~ time_extent_at tree m e)
  /\ (exists m a e,
        layer_named tree "NDVI" m /\ proper_ancestor a m /\ layer_at tree a
        /\ time_extent_at tree a e)
  /\ xpath env tree "//Layer[Name='NDVI']/ancestor-or-self::Layer/Extent[@name='time']/text()"
     = Ok []
  /\ fst (updateWMStimeExtent env (VLayer 0 1) (mkWorld ∅ ∅ [Example.a_map] [] [] []))
     = Raise IndexError.
Proof.
  cbv zeta. split; [|split; [|split]].
  - intros m e (n & Hn & Hl & Hx) (i & ne & -> & Hne & Hte).
    rewrite node_at_child, Hn in Hne.
    pose proof (paths_complete _ _ _ Hn) as Hm. cbv in Hm.
    repeat (destruct Hm as [<- | Hm]); [.. | destruct Hm];
      cbv in Hn; injection Hn as <-; vm_compute in Hl, Hx; try discriminate.
    destruct i as [|[|i]]; cbv in Hne; try discriminate.
    injection Hne as <-. vm_compute in Hte. discriminate.
  - exists [1%nat], [], [0%nat]. repeat split.
    + eexists. repeat split; reflexivity.
    + exists [1%nat]. split; [discriminate | reflexivity].
    + eexists. split; reflexivity.
    + exists 0%nat. eexists. repeat split; reflexivity.
  - vm_compute. reflexivity.
  - vm_compute. reflexivity.
Qed.

Section Normalisation.

Lemma replace_scan_dash (s : string) :
  replace_scan "-" "" O s = without_dashes s.
Proof.
  induction s as [|c s IH]; [reflexivity|].
  cbn [replace_scan without_dashes startswith].
  rewrite (Ascii.eqb_sym "-"%char c).
  destruct (Ascii.eqb c "-"%char); cbn [startswith String.length Nat.pred String.append];
    now rewrite IH.
Qed.

Lemma without_dashes_clean (s : string) :
  occurs "-"%char (without_dashes s) = false.
Proof.
  induction s as [|c s IH]; [reflexivity|].
  cbn [without_dashes].
  destruct (Ascii.eqb c "-"%char) eqn:E; [exact IH|].
  cbn [occurs]. rewrite Ascii.eqb_sym, E. exact IH.
Qed.

Lemma without_dashes_id (s : string) :
  occurs "-"%char s = false -> without_dashes s = s.
Proof.
  induction s as [|c s IH]; [reflexivity|].
  cbn [occurs without_dashes]. intros H.
  apply orb_false_iff in H as [Hc Hs].
  rewrite Ascii.eqb_sym, Hc. now rewrite IH.
Qed.

End Normalisation.

(** C4: the normalisation returns its input with every dash removed and all
    other characters (commas included) untouched; so the result never
    contains a dash, and an input without dashes comes back unchanged. *)
Theorem C4_purge_removes_exactly_dashes (s : string) :
  purge s = without_dashes s
  /\ occurs "-"%char (purge s) = false
  /\ (occurs "-"%char s = false -> purge s = s).
Proof.
  assert (E : purge s = without_dashes s) by apply replace_scan_dash.
  rewrite E. split; [reflexivity|]. split.
  - apply without_dashes_clean.
  - apply without_dashes_id.
Qed.

Lemma C4_purge_witness :
  occurs "-"%char "20000218,20000306" = false
  /\ purge "20000218,20000306" = "20000218,20000306"
  /\ purge "2000-02-18,2000-03-06" = "20000218,20000306".
Proof.
  split; [reflexivity|]. split.
  - apply (C4_purge_removes_exactly_dashes "20000218,20000306"). reflexivity.
  - reflexivity.
Defined.

(* ===================================================================== *)
(** ** Further properties of the script *)
(* ===================================================================== *)

(** *** How a run ends *)

Lemma bind_never_ok {A B : Type} (m : M A) (k : A -> M B) (w : world) :
  (forall a w', exists e, fst (k a w') = Raise e) ->
  exists e, fst ((m ≫= k) w) = Raise e.
Proof.
  intros Hk. unfold mbind, M_bind.
  destruct (m w) as [[a|e] w']; [apply Hk | now exists e].
Qed.

Lemma check_destination_passes (parsed : arguments) (w : world) :
  check_destination parsed w = (Ok tt, w)
  <-> ((length (SOURCE parsed) <= 1)%nat \/ fst (isdir (DEST parsed) w) = Ok true).
Proof.
  unfold check_destination.
  destruct (1 <? length (SOURCE parsed))%nat eqn:E.
  - apply Nat.ltb_lt in E. unfold mbind, M_bind, isdir. cbn [fst].
    destruct (negb (String.eqb (DEST parsed) "") && bool_decide (DEST parsed ∈ dirs w)); cbn.
    + split; [now right | reflexivity].
    + split; [discriminate | intros [H|H]; [lia | discriminate]].
  - apply Nat.ltb_ge in E. split; [now left | reflexivity].
Qed.

Lemma check_destination_fails (parsed : arguments) (w : world) :
  ~ ((length (SOURCE parsed) <= 1)%nat \/ fst (isdir (DEST parsed) w) = Ok true) ->
  check_destination parsed w
  = (Raise (SystemExit EX_USAGE),
     mkWorld (files w) (dirs w) (heap w) (log w) (stdout w ++ [Usage]) (requests w)).
Proof.
  intros H. unfold check_destination.
  destruct (1 <? length (SOURCE parsed))%nat eqn:E.
  - unfold mbind, M_bind, isdir in *. cbn [fst] in *.
    destruct (negb (String.eqb (DEST parsed) "") && bool_decide (DEST parsed ∈ dirs w)); cbn.
    + exfalso. apply H. now right.
    + reflexivity.
  - apply Nat.ltb_ge in E. exfalso. apply H. now left.
Qed.

(** X1: the usage error is raised exactly when several sources are given and
    the destination is not an existing directory; in every other case the
    check passes without any effect. *)
Theorem X1_usage_check_exact (parsed : arguments) (w : world) :
  let several := (1 < length (SOURCE parsed))%nat in
  let folder := fst (isdir (DEST parsed) w) = Ok true in
  (several /\ ~ folder ->
   check_destination parsed w
   = (Raise (SystemExit 64),
      mkWorld (files w) (dirs w) (heap w) (log w) (stdout w ++ [Usage]) (requests w)))
  /\ (~ (several /\ ~ folder) -> check_destination parsed w = (Ok tt, w)).
Proof.
  cbv zeta. split.
  - intros [Hs Hf]. apply check_destination_fails. intros [H|H]; [lia | contradiction].
  - intros H. apply check_destination_passes.
    destruct (decide (length (SOURCE parsed) <= 1)%nat) as [Hl|Hl]; [now left|]. right.
    unfold isdir in *. cbn [fst] in *.
    destruct (negb (String.eqb (DEST parsed) "") && bool_decide (DEST parsed ∈ dirs w));
      [reflexivity|]. exfalso. apply H. split; [lia | discriminate].
Qed.

Section Run.

Variable env : environment.

(** X2: a run never returns and never lets another exception out: it ends
    in [SystemExit] (the exit status) or in [KeyboardInterrupt]. *)
Theorem X2_run_ends_in_exit (parsed : arguments) (w : world) :
  (exists status, fst (script env parsed w) = Raise (SystemExit status))
  \/ fst (script env parsed w) = Raise KeyboardInterrupt.
Proof.
  unfold script, try_except.
  match goal with |- context [ (?m ≫= ?k) w ] =>
    destruct (bind_never_ok m k w) as [e He]
  end.
  { intros _ w1. apply bind_never_ok. intros _ w2. apply bind_never_ok. intros _ w3.
    apply bind_never_ok. intros _ w4. now exists (SystemExit EX_OK). }
  match goal with |- context [ (?m ≫= ?k) w ] =>
    destruct ((m ≫= k) w) as [[a|e'] w'] eqn:Hb
  end; cbn [fst] in He; [discriminate|]. injection He as ->.
  destruct e; cbn [fst]; eauto.
Qed.

Lemma script_until_main (parsed : arguments) (w : world) :
  (length (SOURCE parsed) <= 1)%nat \/ fst (isdir (DEST parsed) w) = Ok true ->
  forall k : unit -> M unit,
  ((check_destination parsed;;
    (if verbose parsed then INFO (asctime_start env) else mret tt);;
    main env parsed ≫= k) w)
  = (main env parsed ≫= k) (started env parsed w).
Proof.
  intros Hc k. apply check_destination_passes in Hc.
  rewrite (bind_ok _ _ _ _ _ Hc). unfold started.
  destruct (verbose parsed); reflexivity.
Qed.


End Run.

Lemma without_dashes_app (a b : string) :
  without_dashes (a +:+ b) = without_dashes a +:+ without_dashes b.
Proof.
  induction a as [|c a IH]; [reflexivity|].
  change (String c a +:+ b) with (String c (a +:+ b)). cbn [without_dashes].
  destruct (Ascii.eqb c "-"); [exact IH|].
  change (String c (without_dashes a) +:+ without_dashes b)
    with (String c (without_dashes a +:+ without_dashes b)).
  now rewrite IH.
Qed.

Lemma purge_without_dashes (s : string) : purge s = without_dashes s.
Proof. apply replace_scan_dash. Qed.

(** X21: the normalisation works piece by piece: the result for a
    concatenation is the concatenation of the results, so each token of a
    comma-separated list is normalised on its own and the commas stay
    between them; a date [y-m-d] whose three fields have no dash becomes
    [ymd]. *)
Theorem X21_purge_piecewise (a b y m d : string) :
  purge (a +:+ b) = purge a +:+ purge b
  /\ purge (a +:+ "," +:+ b) = purge a +:+ "," +:+ purge b
  /\ (occurs "-" y = false -> occurs "-" m = false -> occurs "-" d = false ->
      purge (y +:+ "-" +:+ m +:+ "-" +:+ d) = y +:+ m +:+ d).
Proof.
  rewrite !purge_without_dashes. split; [apply without_dashes_app|]. split.
  - now rewrite !without_dashes_app.
  - intros Hy Hm Hd. rewrite !without_dashes_app.
    now rewrite (without_dashes_id y Hy), (without_dashes_id m Hm), (without_dashes_id d Hd).
Qed.

Section Run_more.

Variable env : environment.

Lemma format_total (s : string) :
  format "TOTAL TIME IN SECONDS: %s" (Single (VStr s)) = Ok ("TOTAL TIME IN SECONDS: " +:+ s).
Proof. rewrite <- (append_empty_r s) at 2. reflexivity. Qed.

(** X4: when the check has passed and [main] returns, the run ends with exit
    status 0; nothing is printed, and with [--verbose] the two closing
    records are logged. *)
Theorem X4_success_exits_zero (parsed : arguments) (w w' : world) :
  (length (SOURCE parsed) <= 1)%nat \/ fst (isdir (DEST parsed) w) = Ok true ->
  main env parsed (started env parsed w) = (Ok tt, w') ->
  script env parsed w = (Raise (SystemExit 0), finished env parsed w').
Proof.
  intros Hc Hm. unfold script.
  apply try_passed; [|reflexivity].
  rewrite (script_until_main env parsed w Hc).
  rewrite (bind_ok _ _ _ _ _ Hm). unfold finished.
  destruct (verbose parsed); [|reflexivity].
  unfold mbind, M_bind, INFO, logging, lift. cbn [enabled].
  rewrite format_total. cbn [files dirs heap log stdout requests].
  now rewrite <- app_assoc.
Qed.

End Run_more.

(** *** Following an observation through a computation *)

Section Through.

Context {X : Type} (f : world -> X).

Lemma after_stable {A B} (m : M A) (k : A -> M B) (w : world) :
  (forall a, stable f (k a)) -> f (snd ((m ≫= k) w)) = f (snd (m w)).
Proof.
  intros Hk. unfold mbind, M_bind.
  destruct (m w) as [[a|e] w1]; cbn [snd]; [apply Hk | reflexivity].
Qed.

Lemma try_stable_handler {A} (m : M A) caught (handler : exn -> M A) (w : world) :
  (forall e, stable f (handler e)) -> f (snd (try_except m caught handler w)) = f (snd (m w)).
Proof.
  intros Hh. unfold try_except.
  destruct (m w) as [[a|e] w1]; cbn [snd]; [reflexivity|].
  destruct (caught e); cbn [snd]; [apply Hh | reflexivity].
Qed.

(** A reflexive relation between the observation before and after holds
    across a stable prefix. *)
Lemma stable_then {A B} (R : X -> X -> Prop) (m : M A) (k : A -> M B) (w : world) :
  (forall x, R x x) -> stable f m ->
  (forall a w1, R (f w1) (f (snd (k a w1)))) ->
  R (f w) (f (snd ((m ≫= k) w))).
Proof.
  intros Hr Hm Hk. unfold mbind, M_bind. specialize (Hm w).
  destruct (m w) as [[a|e] w1]; cbn [snd] in *; rewrite <- Hm; [apply Hk | apply Hr].
Qed.

(** What failed left the observation alone, if the prefix is stable and
    what follows leaves it alone when it fails. *)
Lemma stable_then_failing {A B} (m : M A) (k : A -> M B) (w : world) (e : exn) :
  stable f m ->
  (forall a w1, fst (k a w1) = Raise e -> f (snd (k a w1)) = f w1) ->
  fst ((m ≫= k) w) = Raise e -> f (snd ((m ≫= k) w)) = f w.
Proof.
  intros Hm Hk. unfold mbind, M_bind. specialize (Hm w).
  destruct (m w) as [[a|e'] w1]; cbn [fst snd] in *; intros H; rewrite <- Hm; auto.
Qed.

End Through.

Lemma stable_save_elsewhere (map path : value) (p : string) :
  path <> VStr p -> stable (fun w => files w !! p) (save map path).
Proof.
  intros Hp w. unfold save.
  destruct map; try reflexivity. destruct path; try reflexivity.
  destruct (heap w !! h); [|reflexivity]. cbn [snd files].
  apply lookup_insert_ne. congruence.
Qed.

Lemma save_failing (map path : value) (w : world) (e : exn) :
  fst (save map path w) = Raise e -> files (snd (save map path w)) = files w.
Proof.
  unfold save. destruct map; try reflexivity. destruct path; try reflexivity.
  destruct (heap w !! h); [discriminate | reflexivity].
Qed.

(** *** What [process] writes *)

Section Frames.

Variable env : environment.

Lemma stable_files_update (layer : value) : stable files (updateWMStimeExtent env layer).
Proof. unfold updateWMStimeExtent. stab. Qed.

(** X6: [process] writes to no path but the name of its output file. *)
Theorem X6_process_writes_only_its_output (fileName layerName : string)
        (outFile outFolder : option string) (w : world) (p : string) :
  fst (output_name fileName (opt_value outFile) (opt_value outFolder) w) <> Ok (VStr p) ->
  files (snd (process env fileName layerName outFile outFolder w)) !! p = files w !! p.
Proof.
  intros Hp. unfold process. cbv zeta.
  pose proof (output_name_pure fileName (opt_value outFile) (opt_value outFolder) w) as Hw.
  unfold mbind at 1, M_bind at 1.
  destruct (output_name fileName (opt_value outFile) (opt_value outFolder) w) as [[out|e] w0];
    cbn [fst snd] in *; subst w0; [|reflexivity].
  assert (Hout : out <> VStr p) by congruence.
  match goal with |- _ (snd (?k w)) !! p = _ =>
    assert (S : stable (fun w => files w !! p) k); [|exact (S w)]
  end.
  stab. all: try (apply stable_save_elsewhere; exact Hout).
Qed.

(** X7: a call of [process] that raises has written no file. *)
Theorem X7_process_failure_writes_nothing (fileName layerName : string)
        (outFile outFolder : option string) (w : world) (e : exn) :
  fst (process env fileName layerName outFile outFolder w) = Raise e ->
  files (snd (process env fileName layerName outFile outFolder w)) = files w.
Proof.
  unfold process. cbv zeta.
  apply stable_then_failing; [apply stable_output_name | intros out w1].
  apply stable_then_failing; [stab | intros original w2].
  apply stable_then_failing; [apply stable_getLayerByName | intros layer w3].
  destruct (eq_NoneType layer).
  - intros _. match goal with |- files (snd (?k w3)) = _ =>
      assert (S : stable files k) by stab; exact (S w3) end.
  - apply stable_then_failing; [stab | intros _ w4]. apply save_failing.
Qed.

End Frames.

(** *** Requests, the map object and errors *)

Lemma get_connection_pure (layer : value) (w : world) : snd (get_connection layer w) = w.
Proof.
  unfold get_connection, deref, mbind, M_bind, mret, M_ret.
  destruct layer; try reflexivity.
  destruct (heap w !! h) as [m|]; [|reflexivity]. now destruct (layers m !! i).
Qed.

Section Requests.

Variable env : environment.

Lemma updateWMStimeExtent_requests (layer : value) (w : world) :
  one_request_more (requests w) (requests (snd (updateWMStimeExtent env layer w))).
Proof.
  unfold updateWMStimeExtent.
  pose proof (get_connection_pure layer w) as Hw.
  unfold mbind at 1, M_bind at 1.
  destruct (get_connection layer w) as [[c|e] w0]; cbn [snd] in *; subst w0; [|now left].
  rewrite (bind_ok _ _ w w (c +:+ WMS_QUERY)) by reflexivity.
  right. exists c.
  rewrite after_stable by (intros; stab). reflexivity.
Qed.

(** X8: a call of [process] makes at most one HTTP request, and that request
    is a GetCapabilities request: some connection string followed by the
    fixed query. *)
Theorem X8_process_one_request (fileName layerName : string)
        (outFile outFolder : option string) (w : world) :
  requests (snd (process env fileName layerName outFile outFolder w)) = requests w
  \/ exists c,
      requests (snd (process env fileName layerName outFile outFolder w))
      = requests w ++ [c +:+ "SERVICE=WMS&VERSION=1.1.1&REQUEST=GetCapabilities"].
Proof.
  change (one_request_more (requests w)
            (requests (snd (process env fileName layerName outFile outFolder w)))).
  unfold process. cbv zeta.
  apply stable_then; [now left | apply stable_output_name | intros out w1].
  apply stable_then; [now left | stab | intros original w2].
  apply stable_then; [now left | apply stable_getLayerByName | intros layer w3].
  destruct (eq_NoneType layer).
  - left. match goal with |- requests (snd (?k w3)) = _ =>
      assert (S : stable requests k) by stab; exact (S w3) end.
  - rewrite after_stable by (intros; stab).
    rewrite try_stable_handler by (intros; stab).
    apply updateWMStimeExtent_requests.
Qed.

(** X9: however the Fetcher ends, the map object of a layer is as before or
    differs by the [wms_timeextent] entry of that layer alone, and the value
    put there has no dash. *)
Theorem X9_fetcher_changes_one_entry (w : world) (h i : nat) (m : mapObj) (l : layerObj) :
  heap w !! h = Some m ->
  layers m !! i = Some l ->
  heap (snd (updateWMStimeExtent env (VLayer h i) w)) = heap w
  \/ exists t,
      heap (snd (updateWMStimeExtent env (VLayer h i) w))
      = <[h := set_layer m i (set_metadata l "wms_timeextent" (purge t))]> (heap w)
      /\ occurs "-" (purge t) = false.
Proof.
  intros Hh Hi. unfold updateWMStimeExtent.
  rewrite (bind_ok _ _ _ _ _ (get_connection_layer _ _ _ _ _ Hh Hi)).
  rewrite (bind_ok _ _ w w (connection l +:+ WMS_QUERY)) by reflexivity.
  set (w1 := mkWorld (files w) (dirs w) (heap w) (log w) (stdout w)
                     (requests w ++ [connection l +:+ WMS_QUERY])).
  destruct (http_get env (connection l +:+ WMS_QUERY)) as [xml|e] eqn:Hget;
    [|left; now rewrite (bind_raise _ _ w w1 e) by (unfold urlopen; now rewrite Hget)].
  rewrite (bind_ok _ _ w w1 xml) by (unfold urlopen; now rewrite Hget).
  destruct (etree_parse env xml) as [tree|e] eqn:Hparse;
    [|left; now rewrite (bind_raise _ _ w1 w1 e) by reflexivity].
  rewrite (bind_ok _ _ w1 w1 tree) by reflexivity.
  rewrite try_stable_handler by (intros; stab).
  rewrite (bind_ok _ _ _ _ _ (get_name_layer w1 _ _ _ _ Hh Hi)).
  destruct (extent_expression (name l)) as [expr|e] eqn:Hexpr;
    [|left; now rewrite (bind_raise _ _ w1 w1 e) by (unfold lift; first [reflexivity | now rewrite Hexpr])].
  rewrite (bind_ok _ _ w1 w1 expr) by (unfold lift; first [reflexivity | now rewrite Hexpr]).
  destruct (xpath env tree expr) as [[|t rest]|e] eqn:Hx.
  - left. rewrite (bind_ok _ _ w1 w1 []) by (unfold lift; first [reflexivity | now rewrite Hx]).
    now rewrite (bind_raise _ _ w1 w1 IndexError) by reflexivity.
  - right. exists t. split; [|unfold purge, replace; rewrite replace_scan_dash;
                                apply without_dashes_clean].
    rewrite (bind_ok _ _ w1 w1 (t :: rest)) by (unfold lift; first [reflexivity | now rewrite Hx]).
    rewrite (bind_ok _ _ w1 w1 t) by reflexivity.
    unfold mbind, M_bind, setMetaData, lift. cbn [heap w1]. rewrite Hh, Hi.
    now destruct (IPython_embed env).
  - left. now rewrite (bind_raise _ _ w1 w1 e) by (unfold lift; first [reflexivity | now rewrite Hx]).
Qed.

(** X10: an error of the request or of the XML parser leaves the Fetcher as
    it is raised: these two steps come before the [try], so no error record
    is logged and the layer is not touched. *)
Theorem X10_request_or_parse_error (w : world) (h i : nat) (m : mapObj) (l : layerObj)
        (e : exn) :
  heap w !! h = Some m ->
  layers m !! i = Some l ->
  let url := connection l +:+ "SERVICE=WMS&VERSION=1.1.1&REQUEST=GetCapabilities" in
  http_get env url = Raise e
  \/ (exists xml, http_get env url = Ok xml /\ etree_parse env xml = Raise e) ->
  updateWMStimeExtent env (VLayer h i) w
  = (Raise e, mkWorld (files w) (dirs w) (heap w) (log w) (stdout w) (requests w ++ [url])).
Proof.
  intros Hh Hi url H. unfold updateWMStimeExtent.
  rewrite (bind_ok _ _ _ _ _ (get_connection_layer _ _ _ _ _ Hh Hi)).
  rewrite (bind_ok _ _ w w url) by reflexivity.
  set (w1 := mkWorld (files w) (dirs w) (heap w) (log w) (stdout w) (requests w ++ [url])).
  destruct H as [Hget | (xml & Hget & Hparse)].
  - now rewrite (bind_raise _ _ w w1 e) by (unfold urlopen; now rewrite Hget).
  - rewrite (bind_ok _ _ w w1 xml) by (unfold urlopen; now rewrite Hget).
    now rewrite (bind_raise _ _ w1 w1 e) by (unfold lift; now rewrite Hparse).
Qed.

(** X11: a source that is no mapfile: [process] ends in [MapServerError] at
    once, and nothing in the world has changed. *)
Theorem X11_unreadable_mapfile (fileName layerName : string)
        (outFile outFolder : option string) (out : value) (w : world) :
  fst (output_name fileName (opt_value outFile) (opt_value outFolder) w) = Ok out ->
  files w !! fileName = None ->
  process env fileName layerName outFile outFolder w = (Raise MapServerError, w).
Proof.
  intros Hout Hfile. unfold process. cbv zeta.
  assert (Hout' : output_name fileName (opt_value outFile) (opt_value outFolder) w
                  = (Ok out, w)).
  { rewrite (surjective_pairing (output_name _ _ _ w)), Hout. now rewrite output_name_pure. }
  rewrite (bind_ok _ _ _ _ _ Hout').
  apply bind_raise. unfold new_mapObj. now rewrite Hfile.
Qed.

(** X12: when the Fetcher raises [MapServerError], the handler of [process]
    does not log its warning and does not reach the save: building the
    message raises [KeyError] for [filepath]. *)
Theorem X12_handler_raises_KeyError (fileName layerName : string)
        (outFile outFolder : option string) (out : value) (w w' : world) (m : mapObj) (i : nat) :
  fst (output_name fileName (opt_value outFile) (opt_value outFolder) w) = Ok out ->
  files w !! fileName = Some m ->
  layer_index (layers m) layerName 0 = Some i ->
  updateWMStimeExtent env (VLayer (length (heap w)) i)
    (mkWorld (files w) (dirs w) (heap w ++ [m]) (log w) (stdout w) (requests w))
  = (Raise MapServerError, w') ->
  process env fileName layerName outFile outFolder w = (Raise (KeyError "filepath"), w').
Proof.
  intros Hout Hfile Hidx Hupd. unfold process. cbv zeta.
  assert (Hout' : output_name fileName (opt_value outFile) (opt_value outFolder) w
                  = (Ok out, w)).
  { rewrite (surjective_pairing (output_name _ _ _ w)), Hout. now rewrite output_name_pure. }
  rewrite (bind_ok _ _ _ _ _ Hout').
  rewrite (bind_ok _ _ _ _ _ (new_mapObj_ok _ _ _ Hfile)).
  set (w1 := mkWorld (files w) (dirs w) (heap w ++ [m]) (log w) (stdout w) (requests w)).
  rewrite (bind_ok _ _ _ _ _ (getLayerByName_new w1 m layerName (heap w) eq_refl)).
  rewrite Hidx. cbn [eq_NoneType].
  apply bind_raise. now rewrite (try_caught _ _ _ _ _ _ Hupd eq_refl).
Qed.

End Requests.

(** *** The batch *)

Section Batch.

Variable env : environment.

Lemma for_each_source_app (l1 l2 : list string) (layerName : string)
      (outfile folder : option string) (w : world) :
  for_each_source env (l1 ++ l2) layerName outfile folder w
  = match for_each_source env l1 layerName outfile folder w with
    | (Ok _, w') => for_each_source env l2 layerName outfile folder w'
    | (Raise e, w') => (Raise e, w')
    end.
Proof.
  revert w. induction l1 as [|src l1 IH]; intros w; [reflexivity|].
  cbn [app for_each_source]. unfold mbind, M_bind.
  destruct (process env src layerName outfile folder w) as [[[]|e] w1]; [apply IH | reflexivity].
Qed.

(** X16: the batch stops at the first source that fails: when the sources
    before it are processed and [process] raises on it, the loop ends with
    that exception in the world that call left; the sources after it are
    not looked at. *)
Theorem X16_batch_stops_at_first_failure (done rest : list string) (source layerName : string)
        (outfile folder : option string) (w w1 w2 : world) (e : exn) :
  for_each_source env done layerName outfile folder w = (Ok tt, w1) ->
  process env source layerName outfile folder w1 = (Raise e, w2) ->
  for_each_source env (done ++ source :: rest) layerName outfile folder w = (Raise e, w2).
Proof.
  intros Hd Hp. rewrite for_each_source_app, Hd. cbn [for_each_source].
  now rewrite (bind_raise _ _ _ _ _ Hp).
Qed.
End Batch.

(** *** posixpath *)

Section Paths.

Lemma rfind_from_spec (s : string) : forall i last,
  let r := PosixPath.rfind_from "/" i last s in
  (r = last /\ occurs "/" s = false)
  \/ (i <= r < i + Z.of_nat (String.length s)
      /\ occurs "/" (PosixPath.slice_from (Z.to_nat (r - i + 1)) s) = false).
Proof.
  induction s as [|c s IH]; intros i last; cbn [PosixPath.rfind_from].
  - left. split; reflexivity.
  - cbn zeta in IH.
    destruct (IH (i + 1) (if Ascii.eqb c "/" then i else last)) as [[Hr Hs] | [Hr Hs]].
    + destruct (Ascii.eqb c "/") eqn:E.
      * right. rewrite Hr. split; [cbn [String.length]; lia|].
        replace (i - i + 1) with 1 by lia. exact Hs.
      * left. split; [exact Hr|]. cbn [occurs]. now rewrite Ascii.eqb_sym, E.
    + right. split; [cbn [String.length]; lia|].
      replace (Z.to_nat (PosixPath.rfind_from "/" (i + 1) (if Ascii.eqb c "/" then i else last) s - i + 1))
        with (S (Z.to_nat (PosixPath.rfind_from "/" (i + 1) (if Ascii.eqb c "/" then i else last) s - (i + 1) + 1)))
        by lia.
      exact Hs.
Qed.

Lemma basename_no_slash (p : string) : occurs "/" (PosixPath.basename p) = false.
Proof.
  unfold PosixPath.basename, PosixPath.rfind.
  destruct (rfind_from_spec p 0 (-1)) as [[Hr Hs] | [Hr Hs]]; cbn zeta in *.
  - rewrite Hr. exact Hs.
  - rewrite Z.sub_0_r in Hs. exact Hs.
Qed.

Lemma rfind_from_app (a b : string) : forall i last,
  PosixPath.rfind_from "/" i last (a +:+ b)
  = PosixPath.rfind_from "/" (i + Z.of_nat (String.length a))
                         (PosixPath.rfind_from "/" i last a) b.
Proof.
  induction a as [|c a IH]; intros i last.
  - cbn. now rewrite Z.add_0_r.
  - change (String c a +:+ b) with (String c (a +:+ b)).
    cbn [PosixPath.rfind_from String.length]. rewrite IH. f_equal. lia.
Qed.

Lemma rfind_from_none (b : string) : forall i last,
  occurs "/" b = false -> PosixPath.rfind_from "/" i last b = last.
Proof.
  induction b as [|c b IH]; intros i last H; [reflexivity|].
  cbn [occurs] in H. apply orb_false_iff in H as [Hc Hb].
  cbn [PosixPath.rfind_from]. rewrite Ascii.eqb_sym, Hc. now apply IH.
Qed.

Lemma slice_from_app (a b : string) :
  PosixPath.slice_from (String.length a) (a +:+ b) = b.
Proof.
  induction a as [|c a IH]; [now destruct b|].
  change (String c a +:+ b) with (String c (a +:+ b)). exact IH.
Qed.

Lemma string_app_assoc (a b c : string) : (a +:+ b) +:+ c = a +:+ (b +:+ c).
Proof.
  induction a as [|x a IH]; [reflexivity|].
  change ((String x a +:+ b) +:+ c) with (String x ((a +:+ b) +:+ c)).
  change (String x a +:+ (b +:+ c)) with (String x (a +:+ (b +:+ c))). now rewrite IH.
Qed.

Lemma string_app_length (a b : string) :
  String.length (a +:+ b) = (String.length a + String.length b)%nat.
Proof.
  induction a as [|x a IH]; [reflexivity|].
  change (String x a +:+ b) with (String x (a +:+ b)). cbn [String.length]. now rewrite IH.
Qed.

(** What follows the last slash is the base name. *)
Lemma basename_after_slash (a b : string) :
  occurs "/" b = false -> PosixPath.basename (a +:+ "/" +:+ b) = b.
Proof.
  intros Hb. unfold PosixPath.basename, PosixPath.rfind.
  rewrite <- string_app_assoc, rfind_from_app, (rfind_from_none b) by exact Hb.
  rewrite rfind_from_app. cbn [PosixPath.rfind_from Ascii.eqb Bool.eqb].
  replace (Z.to_nat (0 + Z.of_nat (String.length a) + 1)) with (String.length (a +:+ "/")).
  - apply slice_from_app.
  - rewrite string_app_length. cbn [String.length]. lia.
Qed.

Lemma endswith_slash_split (a : string) :
  PosixPath.endswith_slash a = true -> exists a', a = a' +:+ "/".
Proof.
  induction a as [|c a IH]; [discriminate|].
  cbn [PosixPath.endswith_slash]. destruct a as [|d a].
  - intros H. apply Ascii.eqb_eq in H as ->. now exists "".
  - intros H. destruct (IH H) as [a' ->]. now exists (String c a').
Qed.

Lemma startswith_slash_free (b : string) :
  occurs "/" b = false -> startswith b "/" = false.
Proof.
  destruct b as [|c b]; [reflexivity|]. cbn [occurs startswith]. intros H.
  apply orb_false_iff in H as [Hc _]. now rewrite Hc.
Qed.

(** X17: with a folder, the name of the output file is the folder, a slash
    unless the folder ends with one, and the base name of the source; the
    base name of the output file is the base name of the source. *)
Theorem X17_folder_output_name (fileName folder : string) (outFile : option string)
        (w : world) :
  folder <> "" ->
  truthy (opt_value outFile) = false ->
  let b := PosixPath.basename fileName in
  let out := folder +:+ (if PosixPath.endswith_slash folder then "" else "/") +:+ b in
  output_name fileName (opt_value outFile) (VStr folder) w = (Ok (VStr out), w)
  /\ PosixPath.basename out = PosixPath.basename fileName.
Proof.
  intros Hf Ho b out. pose proof (basename_no_slash fileName) as Hb. fold b in Hb.
  split.
  - rewrite (output_name_folder fileName folder outFile w Hf Ho). fold b.
    unfold PosixPath.join. rewrite (startswith_slash_free b Hb).
    destruct folder as [|c folder]; [contradiction|]. cbn [String.eqb orb].
    subst out. now destruct (PosixPath.endswith_slash (String c folder)).
  - subst out. destruct (PosixPath.endswith_slash folder) eqn:E.
    + apply endswith_slash_split in E as [a' ->].
      rewrite string_app_assoc. now apply (basename_after_slash a' b).
    + now apply basename_after_slash.
Qed.

End Paths.

(** *** More on the query *)

Section More_query.

(** X18: for a layer name without an apostrophe, the query of the Fetcher
    returns a text exactly when it is the content of a text node of an
    [Extent] element named [time] of a [Layer] element that is, or lies
    above, a [Layer] whose [Name] is the layer name: the layer's own extent
    counts as well as an inherited one. *)
Theorem X18_query_selects (env : environment) (tree : node) (x : string) :
  occurs "'" x = false ->
  exists expr found,
    extent_expression x = Ok expr
    /\ xpath env tree expr = Ok found
    /\ forall t,
        In t found
        <-> exists a d e,
            layer_named tree x (a ++ d) /\ layer_at tree a
            /\ time_extent_at tree a e /\ text_in tree e t.
Proof.
  intros Hq. destruct (extent_expression_read x Hq) as (expr & Hexpr & Hread).
  exists expr, (time_extent_query tree x). repeat split; auto.
  - unfold xpath. now rewrite Hread.
  - now apply in_time_extent_query.
  - now apply in_time_extent_query.
Qed.

Lemma selected_is_text (tree : node) (x : string) (p : path) :
  In p (time_extent_nodes tree x) -> exists t, node_at tree p = Some (Text t).
Proof.
  intros H. apply in_time_extent_nodes in H as (a & d & e & j & nt & _ & _ & _ & _ & Hn & Ht).
  destruct nt as [t|]; [now exists t | discriminate].
Qed.

Lemma omap_text_of (tree : node) (ps : list path) :
  (forall p, In p ps -> exists t, node_at tree p = Some (Text t)) ->
  Forall2 (fun p t => node_at tree p = Some (Text t)) ps (omap (text_of tree) ps).
Proof.
  induction ps as [|p ps IH]; intros H; [constructor|].
  destruct (H p (or_introl eq_refl)) as [t Ht].
  cbn [omap list_omap]. unfold text_of at 1. rewrite Ht.
  constructor; [exact Ht|]. apply IH. intros q Hq. apply H. now right.
Qed.

Lemma time_extent_nodes_sorted (tree : node) (x : string) :
  StronglySorted (fun p q => before p q = true) (time_extent_nodes tree x).
Proof. apply document_order_sorted. Qed.

Lemma time_extent_query_texts (tree : node) (x : string) :
  Forall2 (fun p t => node_at tree p = Some (Text t))
          (time_extent_nodes tree x) (time_extent_query tree x).
Proof. apply omap_text_of. intros p. apply selected_is_text. Qed.

(** X19: the texts come in document order, one per selected text node, and
    no node is selected twice: the first match is the earliest in the
    document. *)
Theorem X19_query_in_document_order (tree : node) (x : string) :
  StronglySorted (fun p q => before p q = true) (time_extent_nodes tree x)
  /\ Forall2 (fun p t => node_at tree p = Some (Text t))
             (time_extent_nodes tree x) (time_extent_query tree x).
Proof.
  split.
  - unfold time_extent_nodes. apply document_order_sorted.
  - unfold time_extent_query. apply omap_text_of. intros p. apply selected_is_text.
Qed.

Lemma before_app (a p q : path) : before (a ++ p) (a ++ q) = before p q.
Proof.
  induction a as [|i a IH]; [reflexivity|].
  cbn [app before]. now rewrite Nat.ltb_irrefl, Nat.eqb_refl, IH.
Qed.

Lemma first_is_least (p : path) (ps : list path) (q : path) :
  StronglySorted (fun a b => before a b = true) (p :: ps) ->
  In q (p :: ps) -> q = p \/ before p q = true.
Proof.
  intros Hs [<-|Hq]; [now left|]. right.
  apply StronglySorted_inv in Hs as [_ Hall]. rewrite Forall_forall in Hall.
  apply Hall. now apply list_elem_of_In.
Qed.

(** X20: an inherited extent comes first.  When a layer above the named layer
    has a time extent with text that stands before the branch that leads to
    the named layer, the first match is not a text of the named layer's own
    extents, whether it has any or not. *)
Theorem X20_ancestor_extent_comes_first (tree : node) (x t0 : string)
        (a d : path) (i j k : nat) (ne : node) :
  layer_named tree x (a ++ k :: d) ->
  layer_at tree a ->
  node_at tree (a ++ [i]) = Some ne ->
  is_time_extent ne = true ->
  node_at tree (a ++ [i; j]) = Some (Text t0) ->
  (i < k)%nat ->
  exists p ps t rest,
    time_extent_nodes tree x = p :: ps
    /\ time_extent_query tree x = t :: rest
    /\ node_at tree p = Some (Text t)
    /\ forall i' j', p <> (a ++ k :: d) ++ [i'; j'].
Proof.
  intros Hm Ha Hne Hte Ht0 Hik.
  assert (Hin : In (a ++ [i; j]) (time_extent_nodes tree x)).
  { apply in_time_extent_nodes. exists a, (k :: d), (a ++ [i]), j, (Text t0).
    repeat split; auto; [now exists i, ne | now rewrite <- app_assoc]. }
  pose proof (time_extent_nodes_sorted tree x) as Hs.
  pose proof (time_extent_query_texts tree x) as Hf.
  destruct (time_extent_nodes tree x) as [|p ps] eqn:Hn; [destruct Hin|].
  inversion Hf as [|p' t ps' rest Hpt Hrest E1 E2]. subst.
  exists p, ps, t, rest. repeat split; auto.
  intros i' j' Hp.
  assert (Hb : before (a ++ [i; j]) ((a ++ k :: d) ++ [i'; j']) = true).
  { rewrite <- app_assoc, before_app. cbn [app before].
    apply Nat.ltb_lt in Hik. now rewrite Hik. }
  destruct (first_is_least p ps _ Hs Hin) as [E | B].
  - rewrite E, Hp, before_irrefl in Hb. discriminate.
  - rewrite Hp in B. pose proof (before_trans _ _ _ B Hb) as C.
    rewrite before_irrefl in C. discriminate.
Qed.

End More_query.

Section End_to_end.

Variable env : environment.

Lemma started_files (parsed : arguments) (w : world) :
  files (started env parsed w) = files w /\ dirs (started env parsed w) = dirs w
  /\ heap (started env parsed w) = heap w /\ stdout (started env parsed w) = stdout w
  /\ requests (started env parsed w) = requests w.
Proof. unfold started. now destruct (verbose parsed). Qed.

Lemma finished_files (parsed : arguments) (w : world) :
  files (finished env parsed w) = files w /\ stdout (finished env parsed w) = stdout w.
Proof. unfold finished. now destruct (verbose parsed). Qed.

(** X22: a run over one source with a file as destination, when the fetch
    succeeds: it ends with exit status 0, prints nothing, and the
    destination holds the source's map with the [wms_timeextent] entry of
    the layer set to the first match without its dashes. *)
Theorem X22_single_source_run (parsed : arguments) (w : world) (fileName : string)
        (m : mapObj) (i : nat) (l : layerObj) (xml expr t : string) (tree : node)
        (rest : list string) :
  SOURCE parsed = [fileName] ->
  DEST parsed <> "" ->
  fst (isdir (DEST parsed) w) = Ok false ->
  files w !! fileName = Some m ->
  layer_index (layers m) (LAYER parsed) 0 = Some i ->
  layers m !! i = Some l ->
  http_get env (connection l +:+ "SERVICE=WMS&VERSION=1.1.1&REQUEST=GetCapabilities") = Ok xml ->
  etree_parse env xml = Ok tree ->
  extent_expression (LAYER parsed) = Ok expr ->
  xpath env tree expr = Ok (t :: rest) ->
  IPython_embed env = Ok tt ->
  fst (script env parsed w) = Raise (SystemExit 0)
  /\ files (snd (script env parsed w))
     = <[DEST parsed := set_layer m i (set_metadata l "wms_timeextent" (purge t))]> (files w)
  /\ stdout (snd (script env parsed w)) = stdout w.
Proof.
  intros Hsrc Hne Hdir Hfile Hidx Hl Hget Hparse Hexpr Hx Hipy.
  set (w1 := started env parsed w).
  destruct (started_files parsed w) as (Hf & Hd & Hh & Hs & Hr). fold w1 in Hf, Hd, Hh, Hs, Hr.
  assert (Hdir1 : fst (isdir (DEST parsed) w1) = Ok false).
  { unfold isdir in *. cbn [fst] in *. now rewrite Hd. }
  assert (Hout : fst (output_name fileName (opt_value (Some (DEST parsed))) (opt_value None) w1)
                 = Ok (VStr (DEST parsed))).
  { exact (f_equal fst (output_name_file fileName (DEST parsed) None w1 Hne eq_refl)). }
  rewrite <- Hf in Hfile.
  pose proof (process_found env w1 fileName (LAYER parsed) (Some (DEST parsed)) None
                (DEST parsed) m i l xml expr t tree rest
                Hout Hfile Hidx Hl Hget Hparse Hexpr Hx Hipy) as Hp.
  cbv zeta in Hp.
  match type of Hp with _ = (_, ?w2') => set (w2 := w2') in Hp end.
  assert (Hmain : main env parsed w1 = (Ok tt, w2)).
  { unfold main.
    rewrite (bind_ok _ _ _ _ _ (destination_kind_file _ _ Hdir1)). cbn [fst snd].
    rewrite Hsrc. cbn [for_each_source].
    now rewrite (bind_ok _ _ _ _ _ Hp). }
  assert (Hrun : script env parsed w = (Raise (SystemExit 0), finished env parsed w2)).
  { unfold script. apply try_passed; [|reflexivity].
    rewrite (script_until_main env parsed w) by (left; rewrite Hsrc; cbn; lia).
    fold w1. rewrite (bind_ok _ _ _ _ _ Hmain). unfold finished.
    destruct (verbose parsed); [|reflexivity].
    unfold mbind, M_bind, INFO, logging, lift. cbn [enabled].
    rewrite format_total. cbn [files dirs heap log stdout requests].
    now rewrite <- app_assoc. }
  rewrite Hrun. cbn [fst snd].
  destruct (finished_files parsed w2) as [-> ->].
  subst w2. cbn [files stdout]. rewrite Hf, Hs. repeat split; reflexivity.
Qed.

End End_to_end.

Lemma X22_single_source_run_witness :
  fst (script (Example.stub Example.ndvi_capabilities)
              (mkArgs true "NDVI" ["a.map"] "out.map") Example.disk)
  = Raise (SystemExit 0).
Proof.
  apply (X22_single_source_run
           (Example.stub Example.ndvi_capabilities)
           (mkArgs true "NDVI" ["a.map"] "out.map") Example.disk "a.map"
           Example.a_map 1 Example.ndvi "<xml>"
           "//Layer[Name='NDVI']/ancestor-or-self::Layer/Extent[@name='time']/text()"
           "2000-02-18,2000-03-06" Example.ndvi_capabilities []).
  all: try (vm_compute; reflexivity).
  discriminate.
Defined.

(** *** Failures that end the batch *)

Section Failures.

Variable env : environment.

(** X5: no call of [process] and no run logs a warning, whatever the input
    and however it ends: the two [WARN] calls of [process] have templates
    that [%] rejects, so their messages are never built. *)
Theorem X5_run_never_warns (parsed : arguments) (fileName layerName : string)
        (outFile outFolder : option string) (w : world) :
  warnings (snd (process env fileName layerName outFile outFolder w)) = warnings w
  /\ warnings (snd (script env parsed w)) = warnings w.
Proof.
  split.
  - apply process_no_warning.
  - apply script_no_warning.
Qed.

(** X13: a mapfile without the layer ends the batch: [process] raises
    [AttributeError] on it, nothing is logged, requested or written, and
    the sources after it are not opened. *)
Theorem X13_missing_layer_stops_batch (w : world) (fileName layerName : string)
        (rest : list string) (outfile folder : option string) (out : value) (m : mapObj) :
  fst (output_name fileName (opt_value outfile) (opt_value folder) w) = Ok out ->
  files w !! fileName = Some m ->
  layer_index (layers m) layerName 0 = None ->
  Forall (fun l => name l <> layerName) (layers m)
  /\ for_each_source env (fileName :: rest) layerName outfile folder w
     = (Raise AttributeError,
        mkWorld (files w) (dirs w) (heap w ++ [m]) (log w) (stdout w) (requests w)).
Proof.
  intros Hout Hfile Hidx. split.
  - now apply (layer_index_absent (layers m) layerName 0).
  - cbn [for_each_source]. apply bind_raise.
    now apply (process_layer_absent env w fileName layerName outfile folder out m).
Qed.

(** X14: a query without a match ends the batch: the Fetcher logs one
    error record, [process] raises [IndexError] without saving, and the
    sources after it are not opened. *)
Theorem X14_missing_extent_stops_batch (w : world) (fileName layerName : string)
        (rest : list string) (outfile folder : option string) (out : value) (m : mapObj)
        (i : nat) (l : layerObj) (xml expr : string) (tree : node) :
  fst (output_name fileName (opt_value outfile) (opt_value folder) w) = Ok out ->
  files w !! fileName = Some m ->
  layer_index (layers m) layerName 0 = Some i ->
  layers m !! i = Some l ->
  http_get env (connection l +:+ "SERVICE=WMS&VERSION=1.1.1&REQUEST=GetCapabilities") = Ok xml ->
  etree_parse env xml = Ok tree ->
  extent_expression layerName = Ok expr ->
  xpath env tree expr = Ok [] ->
  for_each_source env (fileName :: rest) layerName outfile folder w
  = (Raise IndexError,
     mkWorld (files w) (dirs w) (heap w ++ [m])
             (log w ++ [(ERROR_, "Unable to locate dates in capabilities document at: "
                                   +:+ connection l)])
             (stdout w)
             (requests w ++ [connection l +:+ "SERVICE=WMS&VERSION=1.1.1&REQUEST=GetCapabilities"])).
Proof.
  intros Hout Hfile Hidx Hl Hget Hparse Hexpr Hx.
  cbn [for_each_source]. apply bind_raise.
  now apply (process_extent_absent env w fileName layerName outfile folder out m i l
                                   xml expr tree).
Qed.

(** X15: when the debugger session left on the success path (or its
    [import]) raises an exception other than [MapServerError], [process]
    raises it, the map is not saved, and the batch ends there. *)
Theorem X15_debugger_failure (w : world) (fileName layerName : string)
        (rest : list string) (outfile folder : option string) (out : value) (m : mapObj)
        (i : nat) (l : layerObj) (xml expr t : string) (tree : node) (found : list string)
        (e : exn) :
  fst (output_name fileName (opt_value outfile) (opt_value folder) w) = Ok out ->
  files w !! fileName = Some m ->
  layer_index (layers m) layerName 0 = Some i ->
  layers m !! i = Some l ->
  http_get env (connection l +:+ "SERVICE=WMS&VERSION=1.1.1&REQUEST=GetCapabilities") = Ok xml ->
  etree_parse env xml = Ok tree ->
  extent_expression layerName = Ok expr ->
  xpath env tree expr = Ok (t :: found) ->
  IPython_embed env = Raise e ->
  e <> MapServerError ->
  fst (process env fileName layerName outfile folder w) = Raise e
  /\ files (snd (process env fileName layerName outfile folder w)) = files w
  /\ fst (for_each_source env (fileName :: rest) layerName outfile folder w) = Raise e.
Proof.
  intros Hout Hfile Hidx Hl Hget Hparse Hexpr Hx Hipy He.
  destruct (process_debugger_raises env w fileName layerName outfile folder out m i l
              xml expr t tree found e Hout Hfile Hidx Hl Hget Hparse Hexpr Hx Hipy He)
    as [Hr Hf].
  split; [exact Hr|]. split; [exact Hf|].
  cbn [for_each_source]. unfold mbind, M_bind.
  destruct (process env fileName layerName outfile folder w) as [[[]|e'] w1];
    cbn [fst] in *; [discriminate | exact Hr].
Qed.

End Failures.

(** *** The properties at the example files *)

Lemma X1_usage_check_exact_witness :
  check_destination (mkArgs false "NDVI" ["a.map"] "out.map") Example.disk
  = (Ok tt, Example.disk).
Proof.
  apply (X1_usage_check_exact (mkArgs false "NDVI" ["a.map"] "out.map") Example.disk).
  cbn [SOURCE length]. intros [H _]. lia.
Defined.


Lemma X4_success_exits_zero_witness :
  fst (script (Example.stub Example.ndvi_capabilities)
              (mkArgs false "NDVI" ["a.map"] "out.map") Example.disk)
  = Raise (SystemExit 0).
Proof.
  rewrite (X4_success_exits_zero
             (Example.stub Example.ndvi_capabilities)
             (mkArgs false "NDVI" ["a.map"] "out.map") Example.disk
             (snd (main (Example.stub Example.ndvi_capabilities)
                        (mkArgs false "NDVI" ["a.map"] "out.map") Example.disk))).
  - reflexivity.
  - left. cbn [SOURCE length]. lia.
  - vm_compute. reflexivity.
Defined.

Lemma X6_process_writes_only_its_output_witness :
  files (snd (process (Example.stub Example.ndvi_capabilities) "a.map" "NDVI"
                      (Some "out.map") None Example.disk)) !! "a.map"
  = files Example.disk !! "a.map".
Proof.
  apply (X6_process_writes_only_its_output
           (Example.stub Example.ndvi_capabilities) "a.map" "NDVI" (Some "out.map") None
           Example.disk "a.map").
  vm_compute. discriminate.
Defined.

Lemma X7_process_failure_writes_nothing_witness :
  files (snd (process (Example.stub Example.ndvi_capabilities) "c.map" "NDVI"
                      (Some "out.map") None Example.disk))
  = files Example.disk.
Proof.
  apply (X7_process_failure_writes_nothing
           (Example.stub Example.ndvi_capabilities) "c.map" "NDVI" (Some "out.map") None
           Example.disk AttributeError).
  vm_compute. reflexivity.
Defined.

Lemma X9_fetcher_changes_one_entry_witness :
  heap (snd (updateWMStimeExtent (Example.stub Example.ndvi_capabilities) (VLayer 0 1)
                                 (mkWorld ∅ ∅ [Example.a_map] [] [] [])))
  = [Example.a_map]
  \/ exists t,
      heap (snd (updateWMStimeExtent (Example.stub Example.ndvi_capabilities) (VLayer 0 1)
                                     (mkWorld ∅ ∅ [Example.a_map] [] [] [])))
      = <[0%nat := set_layer Example.a_map 1
                             (set_metadata Example.ndvi "wms_timeextent" (purge t))]>
          [Example.a_map]
      /\ occurs "-" (purge t) = false.
Proof.
  apply (X9_fetcher_changes_one_entry
           (Example.stub Example.ndvi_capabilities)
           (mkWorld ∅ ∅ [Example.a_map] [] [] []) 0 1 Example.a_map Example.ndvi).
  - reflexivity.
  - reflexivity.
Defined.

Lemma X10_request_or_parse_error_witness :
  updateWMStimeExtent Example.offline (VLayer 0 1) (mkWorld ∅ ∅ [Example.a_map] [] [] [])
  = (Raise URLError,
     mkWorld ∅ ∅ [Example.a_map] [] []
             ["http://stub/wms?SERVICE=WMS&VERSION=1.1.1&REQUEST=GetCapabilities"]).
Proof.
  apply (X10_request_or_parse_error
           Example.offline (mkWorld ∅ ∅ [Example.a_map] [] [] []) 0 1
           Example.a_map Example.ndvi URLError).
  - reflexivity.
  - reflexivity.
  - left. reflexivity.
Defined.

Lemma X11_unreadable_mapfile_witness :
  process (Example.stub Example.ndvi_capabilities) "missing.map" "NDVI"
          (Some "out.map") None Example.disk
  = (Raise MapServerError, Example.disk).
Proof.
  apply (X11_unreadable_mapfile
           (Example.stub Example.ndvi_capabilities) "missing.map" "NDVI"
           (Some "out.map") None (VStr "out.map") Example.disk).
  - vm_compute. reflexivity.
  - vm_compute. reflexivity.
Defined.

Lemma X12_handler_raises_KeyError_witness :
  fst (process (Example.stub_debugger Example.ndvi_capabilities MapServerError)
               "a.map" "NDVI" (Some "out.map") None Example.disk)
  = Raise (KeyError "filepath").
Proof.
  rewrite (X12_handler_raises_KeyError
             (Example.stub_debugger Example.ndvi_capabilities MapServerError)
             "a.map" "NDVI" (Some "out.map") None (VStr "out.map") Example.disk
             (snd (updateWMStimeExtent
                     (Example.stub_debugger Example.ndvi_capabilities MapServerError)
                     (VLayer 0 1)
                     (mkWorld (files Example.disk) (dirs Example.disk) [Example.a_map]
                              [] [] [])))
             Example.a_map 1).
  - reflexivity.
  - vm_compute. reflexivity.
  - vm_compute. reflexivity.
  - vm_compute. reflexivity.
  - vm_compute. reflexivity.
Defined.

Lemma X13_missing_layer_stops_batch_witness :
  for_each_source (Example.stub Example.ndvi_capabilities) ["c.map"; "a.map"] "NDVI"
                  None (Some "outdir") Example.disk
  = (Raise AttributeError,
     mkWorld (files Example.disk) (dirs Example.disk) [Example.c_map] [] [] []).
Proof.
  apply (X13_missing_layer_stops_batch
           (Example.stub Example.ndvi_capabilities) Example.disk "c.map" "NDVI" ["a.map"]
           None (Some "outdir") (VStr "outdir/c.map") Example.c_map).
  - vm_compute. reflexivity.
  - vm_compute. reflexivity.
  - reflexivity.
Defined.

Lemma X14_missing_extent_stops_batch_witness :
  for_each_source (Example.stub Example.no_extent_capabilities) ["a.map"; "c.map"] "NDVI"
                  None (Some "outdir") Example.disk
  = (Raise IndexError,
     mkWorld (files Example.disk) (dirs Example.disk) [Example.a_map]
             [(ERROR_, "Unable to locate dates in capabilities document at: http://stub/wms?")]
             []
             ["http://stub/wms?SERVICE=WMS&VERSION=1.1.1&REQUEST=GetCapabilities"]).
Proof.
  apply (X14_missing_extent_stops_batch
           (Example.stub Example.no_extent_capabilities) Example.disk "a.map" "NDVI" ["c.map"]
           None (Some "outdir") (VStr "outdir/a.map") Example.a_map 1 Example.ndvi "<xml>"
           "//Layer[Name='NDVI']/ancestor-or-self::Layer/Extent[@name='time']/text()"
           Example.no_extent_capabilities).
  all: vm_compute; reflexivity.
Defined.

Lemma X15_debugger_failure_witness :
  fst (process (Example.stub_debugger Example.ndvi_capabilities ImportError)
               "a.map" "NDVI" (Some "out.map") None Example.disk)
  = Raise ImportError.
Proof.
  apply (X15_debugger_failure
           (Example.stub_debugger Example.ndvi_capabilities ImportError)
           Example.disk "a.map" "NDVI" [] (Some "out.map") None (VStr "out.map")
           Example.a_map 1 Example.ndvi "<xml>"
           "//Layer[Name='NDVI']/ancestor-or-self::Layer/Extent[@name='time']/text()"
           "2000-02-18,2000-03-06" Example.ndvi_capabilities [] ImportError).
  all: try (vm_compute; reflexivity).
  discriminate.
Defined.

Lemma X16_batch_stops_at_first_failure_witness :
  for_each_source (Example.stub Example.ndvi_capabilities) ([] ++ "c.map" :: ["a.map"])
                  "NDVI" None (Some "outdir") Example.disk
  = (Raise AttributeError,
     mkWorld (files Example.disk) (dirs Example.disk) [Example.c_map] [] [] []).
Proof.
  apply (X16_batch_stops_at_first_failure
           (Example.stub Example.ndvi_capabilities) [] ["a.map"] "c.map" "NDVI"
           None (Some "outdir") Example.disk Example.disk).
  - reflexivity.
  - vm_compute. reflexivity.
Defined.

Lemma X17_folder_output_name_witness :
  output_name "/tmp/some/mapfile.map" VNone (VStr "outdir/") Example.disk
  = (Ok (VStr "outdir/mapfile.map"), Example.disk)
  /\ PosixPath.basename "outdir/mapfile.map" = "mapfile.map".
Proof.
  apply (X17_folder_output_name "/tmp/some/mapfile.map" "outdir/" None Example.disk).
  - discriminate.
  - reflexivity.
Defined.

Lemma X18_query_selects_witness :
  exists expr found,
    extent_expression "NDVI" = Ok expr
    /\ xpath (Example.stub Example.shadowed_capabilities) Example.shadowed_capabilities expr
       = Ok found
    /\ forall t,
        In t found
        <-> exists a d e,
            layer_named Example.shadowed_capabilities "NDVI" (a ++ d)
            /\ layer_at Example.shadowed_capabilities a
            /\ time_extent_at Example.shadowed_capabilities a e
            /\ text_in Example.shadowed_capabilities e t.
Proof.
  apply (X18_query_selects (Example.stub Example.shadowed_capabilities)
                           Example.shadowed_capabilities "NDVI").
  reflexivity.
Defined.

Lemma X20_ancestor_extent_comes_first_witness :
  exists p ps t rest,
    time_extent_nodes Example.shadowed_capabilities "NDVI" = p :: ps
    /\ time_extent_query Example.shadowed_capabilities "NDVI" = t :: rest
    /\ node_at Example.shadowed_capabilities p = Some (Text t)
    /\ forall i' j', p <> ([] ++ 1%nat :: []) ++ [i'; j'].
Proof.
  apply (X20_ancestor_extent_comes_first
           Example.shadowed_capabilities "NDVI" "1999-12-31" [] [] 0 0 1
           (Elem "Extent" [("name", "time")] [Text "1999-12-31"])).
  - eexists. repeat split; reflexivity.
  - eexists. split; reflexivity.
  - reflexivity.
  - reflexivity.
  - reflexivity.
  - lia.
Defined.

Lemma X21_purge_piecewise_witness :
  purge ("2000" +:+ "-" +:+ "02" +:+ "-" +:+ "18") = "2000" +:+ "02" +:+ "18".
Proof.
  apply (X21_purge_piecewise "" "" "2000" "02" "18"); reflexivity.
Defined.
